(** * Marketing-mix dashboard: the recomputation callback of [wireframe.py]

    A shallow embedding of [update_graphs] (wireframe.py, lines 115-179):
    the three boolean-mask filters over the module-level frame [df], the
    nested function [adstock], the four column assignments and the series
    handed to the six figures.

    Numbers are kept behind an interface ([Number], [Power]) because the
    callback mixes numpy integers and binary64 floats through [+], [*],
    [**] and [>=]; the structural theorems hold for every instance, the
    numeric examples are evaluated on binary64 ([PrimFloat]) and, for
    [**], on the real numbers. *)

From Stdlib Require Import PrimFloat ZArith Reals Lra.
From stdpp Require Import gmap strings list.

(** A decimal literal such as [0.1] denotes the closest binary64 value, as
    it does in Python. *)
#[local] Set Warnings "-inexact-float".

(** ** Python exceptions and the outcome of a call *)

Inductive exn : Type :=
  | IndexError      (* positional access out of bounds *)
  | KeyError        (* column label not in the frame *)
  | ValueError      (* length of values does not match length of index *)
  | IndexingError   (* boolean mask of the wrong length *)
  | Dangling.       (* reference to no object: never raised by Python *)

Inductive outcome (A : Type) : Type :=
  | Ok (a : A)
  | Raise (e : exn).
Arguments Ok {A} a.
Arguments Raise {A} e.

Definition outcome_bind {A B} (f : A → outcome B) (r : outcome A) : outcome B :=
  match r with
  | Ok a => f a
  | Raise e => Raise e
  end.

#[global] Instance outcome_mret : MRet outcome := @Ok.
#[global] Instance outcome_mbind : MBind outcome := @outcome_bind.

(** ** The arithmetic the callback uses *)

Class Number (num : Type) : Type := {
  add : num → num → num;      (* [x + y] *)
  mul : num → num → num;      (* [x * y] *)
  ge : num → num → bool;      (* [x >= y] *)
  one : num                   (* the literal [1] *)
}.

Class Power (num : Type) : Type :=
  pow : num → num → num.      (* [x ** y] *)

(** A [for i in range(...)] loop whose body may raise. *)
Fixpoint for_range {S : Type} (body : nat → S → outcome S)
    (indices : list nat) (s : S) : outcome S :=
  match indices with
  | [] => Ok s
  | i :: rest =>
      match body i s with
      | Ok s' => for_range body rest s'
      | Raise e => Raise e
      end
  end.

(** [range(lo, hi)] *)
Definition range (lo hi : nat) : list nat := seq lo (hi - lo).

Section Adstock.
Context {num : Type} `{Number num}.

(** [series.iloc[i]] for [i >= 0]: positional access into a Series. *)
Definition iloc (series : list num) (i : nat) : outcome num :=
  match series !! i with
  | Some x => Ok x
  | None => Raise IndexError
  end.

(** [result[i]] for [i >= 0] on a Python list. *)
Definition list_getitem (l : list num) (i : nat) : outcome num :=
  match l !! i with
  | Some x => Ok x
  | None => Raise IndexError
  end.

(** The body of the loop at line 124:
    [result.append(series.iloc[i] + alpha * result[i-1] * beta)]. *)
Definition adstock_body (series : list num) (alpha beta : num)
    (i : nat) (result : list num) : outcome (list num) :=
  x ← iloc series i;
  prev ← list_getitem result (i - 1);
  mret (result ++ [add x (mul (mul alpha prev) beta)]).

(** [adstock] (lines 121-125). *)
Definition adstock (series : list num) (alpha beta : num) : outcome (list num) :=
  x0 ← iloc series 0;
  for_range (adstock_body series alpha beta) (range 1 (length series)) [x0].

(** The closed form of the recurrence, used only in proofs: the values
    that follow [prev] when the remaining spends are [rest]. *)
Fixpoint carry (alpha beta prev : num) (rest : list num) : list num :=
  match rest with
  | [] => []
  | x :: rest' =>
      let y := add x (mul (mul alpha prev) beta) in
      y :: carry alpha beta y rest'
  end.

End Adstock.

(** ** Data frames *)

Section Frames.
Context {num : Type}.

(** One observation: the thirteen columns of the dummy data (lines 15-29).
    [Date] is a timestamp. *)
Record Row : Type := {
  Product : string;
  Date : Z;
  Sales : num;
  Paid_Search_Spend : num;
  Banner_Ads_Spend : num;
  Impressions_Paid_Search : num;
  Impressions_Banner_Ads : num;
  Clicks_Paid_Search : num;
  Clicks_Banner_Ads : num;
  Conversions_Paid_Search : num;
  Conversions_Banner_Ads : num;
  Customer_Loyalty : num;
  Perfect_Store_Score : num
}.

(** A frame: its rows in order, and the columns added by
    [frame[label] = values], by label. *)
Record DataFrame : Type := {
  rows : list Row;
  assigned : gmap string (list num)
}.

(** Keep the positions where a boolean mask is [True]. *)
Fixpoint mask_select {A : Type} (mask : list bool) (l : list A) : list A :=
  match mask, l with
  | b :: mask', x :: l' =>
      if b then x :: mask_select mask' l' else mask_select mask' l'
  | _, _ => []
  end.

(** Frames are objects: variables hold references into a store. *)
Definition loc : Type := positive.

Definition M (A : Type) : Type :=
  gmap loc DataFrame → outcome A * gmap loc DataFrame.

Definition ret {A} (a : A) : M A := λ h, (Ok a, h).

Definition bind {A B} (m : M A) (k : A → M B) : M B :=
  λ h, match m h with
       | (Ok a, h') => k a h'
       | (Raise e, h') => (Raise e, h')
       end.

Definition raise {A} (e : exn) : M A := λ h, (Raise e, h).

(** A call to a function that touches no frame. *)
Definition lift {A} (r : outcome A) : M A := λ h, (r, h).

Definition read (l : loc) : M DataFrame :=
  λ h, match h !! l with
       | Some f => (Ok f, h)
       | None => (Raise Dangling, h)
       end.

Definition alloc (f : DataFrame) : M loc :=
  λ h, let l := fresh (dom h) in (Ok l, <[l := f]> h).

Definition write (l : loc) (f : DataFrame) : M unit :=
  λ h, (Ok tt, <[l := f]> h).

End Frames.

Arguments Row : clear implicits.
Arguments DataFrame : clear implicits.
Arguments M : clear implicits.

#[global] Instance M_mret {num} : MRet (M num) := @ret num.
#[global] Instance M_mbind {num} : MBind (M num) := λ A B k m, bind m k.

(** ** Series and frame operations *)

Section Pandas.
Context {num : Type} `{Number num} `{Power num}.

(** [frame[label]] for one of the generated columns. *)
Definition getcol {A : Type} (column : Row num → A) (l : loc) : M num (list A) :=
  f ← read l;
  mret (column <$> rows f).

(** [frame[label]] for a column added by assignment. *)
Definition getcol_assigned (label : string) (l : loc) : M num (list num) :=
  f ← read l;
  match assigned f !! label with
  | Some s => mret s
  | None => raise KeyError
  end.

(** [frame[mask]]: a new frame holding the rows where [mask] is [True]. *)
Definition getitem_mask (l : loc) (mask : list bool) : M num loc :=
  f ← read l;
  if decide (length mask = length (rows f)) then
    alloc {| rows := mask_select mask (rows f);
             assigned := mask_select mask <$> assigned f |}
  else raise IndexingError.

(** [frame[label] = values] with [values] a Python list: in place. *)
Definition setitem (l : loc) (label : string) (values : list num) : M num unit :=
  f ← read l;
  if decide (length values = length (rows f)) then
    write l {| rows := rows f; assigned := <[label := values]> (assigned f) |}
  else raise ValueError.

(** [dates >= d] and [dates <= d] *)
Definition date_ge (dates : list Z) (d : Z) : list bool := (λ x, (x >=? d)%Z) <$> dates.
Definition date_le (dates : list Z) (d : Z) : list bool := (λ x, (x <=? d)%Z) <$> dates.

(** [m1 & m2] *)
Definition mask_and (m1 m2 : list bool) : list bool := zip_with andb m1 m2.

(** [products.isin(values)] *)
Definition isin (products : list string) (values : list string) : list bool :=
  (λ p, bool_decide (p ∈ values)) <$> products.

(** [s1 + s2], [s >= c], [s * c], [s ** c] *)
Definition series_add (s1 s2 : list num) : list num := zip_with add s1 s2.
Definition series_ge (s : list num) (c : num) : list bool := (λ x, ge x c) <$> s.
Definition series_mul (s : list num) (c : num) : list num := (λ x, mul x c) <$> s.
Definition series_pow (s : list num) (c : num) : list num := (λ x, pow x c) <$> s.

End Pandas.

(** ** Figures: the data of each trace (layout and styling carry no data) *)

Section Figures.
Context {num : Type}.

Inductive Trace : Type :=
  | Bar (x : list Z) (y : list num) (name : string)
  | Scatter (x : list Z) (y : list num) (name : string).

Inductive Figure : Type :=
  | GoFigure (data : list Trace)
  | PxLine (data_frame : DataFrame num) (x : string) (y : list string)
           (color : string).

(** [fig.add_trace(t)] on a [go.Figure] *)
Definition add_trace (fig : list Trace) (t : Trace) : list Trace := fig ++ [t].

End Figures.

Arguments Trace : clear implicits.
Arguments Figure : clear implicits.

(** ** The callback *)

Section Callback.
Context {num : Type} `{Number num} `{Power num}.

(** Lines 116-118: three boolean-mask selections, each from the frame
    the previous one produced. *)
Definition filter_stage (df : loc) (selected_products : list string)
    (budget_threshold : num) (start_date end_date : Z) : M num loc :=
  lower ← getcol Date df;
  upper ← getcol Date df;
  filtered_df ← getitem_mask df
    (mask_and (date_ge lower start_date) (date_le upper end_date));
  product ← getcol Product filtered_df;
  filtered_df ← getitem_mask filtered_df (isin product selected_products);
  paid ← getcol Paid_Search_Spend filtered_df;
  banner ← getcol Banner_Ads_Spend filtered_df;
  getitem_mask filtered_df (series_ge (series_add paid banner) budget_threshold).

(** Lines 127-132: the four column assignments on the filtered frame. *)
Definition transform_stage (filtered_df : loc) (alpha beta : num) : M num unit :=
  paid ← getcol Paid_Search_Spend filtered_df;
  values ← lift (adstock paid alpha beta);
  setitem filtered_df "Adstock_Paid_Search" values;;
  banner ← getcol Banner_Ads_Spend filtered_df;
  values ← lift (adstock banner alpha beta);
  setitem filtered_df "Adstock_Banner_Ads" values;;
  paid ← getcol Paid_Search_Spend filtered_df;
  setitem filtered_df "Diminishing_Paid_Search" (series_pow paid alpha);;
  banner ← getcol Banner_Ads_Spend filtered_df;
  setitem filtered_df "Diminishing_Banner_Ads" (series_pow banner beta).

(** Line 175: [filtered_df['Sales'] * (1 + alpha)]. *)
Definition uplift (sales : list num) (alpha : num) : list num :=
  series_mul sales (add one alpha).

(** Lines 135-139 *)
Definition adstock_graph (filtered_df : loc) : M num (Figure num) :=
  let fig_adstock := [] in
  x ← getcol Date filtered_df;
  y ← getcol Paid_Search_Spend filtered_df;
  let fig_adstock :=
    add_trace fig_adstock (Bar x y "Initial Advertising (Paid Search)") in
  x ← getcol Date filtered_df;
  y ← getcol Banner_Ads_Spend filtered_df;
  let fig_adstock :=
    add_trace fig_adstock (Bar x y "Initial Advertising (Banner Ads)") in
  x ← getcol Date filtered_df;
  y ← getcol_assigned "Adstock_Paid_Search" filtered_df;
  let fig_adstock :=
    add_trace fig_adstock (Scatter x y "Adstocked Advertising (Paid Search)") in
  x ← getcol Date filtered_df;
  y ← getcol_assigned "Adstock_Banner_Ads" filtered_df;
  let fig_adstock :=
    add_trace fig_adstock (Scatter x y "Adstocked Advertising (Banner Ads)") in
  mret (GoFigure fig_adstock).

(** Lines 146-148 *)
Definition diminishing_graph (filtered_df : loc) : M num (Figure num) :=
  let fig_diminishing := [] in
  x ← getcol Date filtered_df;
  y ← getcol_assigned "Diminishing_Paid_Search" filtered_df;
  let fig_diminishing :=
    add_trace fig_diminishing (Scatter x y "Diminishing Paid Search") in
  x ← getcol Date filtered_df;
  y ← getcol_assigned "Diminishing_Banner_Ads" filtered_df;
  let fig_diminishing :=
    add_trace fig_diminishing (Scatter x y "Diminishing Banner Ads") in
  mret (GoFigure fig_diminishing).

(** Lines 153-156 *)
Definition sales_ad_graph (filtered_df : loc) : M num (Figure num) :=
  let fig_sales_ad := [] in
  x ← getcol Date filtered_df;
  y ← getcol Sales filtered_df;
  let fig_sales_ad := add_trace fig_sales_ad (Scatter x y "Sales") in
  x ← getcol Date filtered_df;
  y ← getcol Paid_Search_Spend filtered_df;
  let fig_sales_ad := add_trace fig_sales_ad (Scatter x y "Paid Search Spend") in
  x ← getcol Date filtered_df;
  y ← getcol Banner_Ads_Spend filtered_df;
  let fig_sales_ad := add_trace fig_sales_ad (Scatter x y "Banner Ads Spend") in
  mret (GoFigure fig_sales_ad).

(** Line 161 *)
Definition budget_product_graph (filtered_df : loc) : M num (Figure num) :=
  data_frame ← read filtered_df;
  mret (PxLine data_frame "Date" ["Paid_Search_Spend"; "Banner_Ads_Spend"]
          "Product").

(** Lines 166-168 *)
Definition budget_ad_graph (filtered_df : loc) : M num (Figure num) :=
  let fig_budget_ad := [] in
  x ← getcol Date filtered_df;
  y ← getcol Paid_Search_Spend filtered_df;
  let fig_budget_ad := add_trace fig_budget_ad (Scatter x y "Paid Search Spend") in
  x ← getcol Date filtered_df;
  y ← getcol Banner_Ads_Spend filtered_df;
  let fig_budget_ad := add_trace fig_budget_ad (Scatter x y "Banner Ads Spend") in
  mret (GoFigure fig_budget_ad).

(** Lines 173-175 *)
Definition uplift_graph (filtered_df : loc) (alpha : num) : M num (Figure num) :=
  let fig_uplift := [] in
  x ← getcol Date filtered_df;
  y ← getcol Sales filtered_df;
  let fig_uplift := add_trace fig_uplift (Scatter x y "Actual Sales") in
  x ← getcol Date filtered_df;
  sales ← getcol Sales filtered_df;
  let fig_uplift :=
    add_trace fig_uplift (Scatter x (uplift sales alpha) "Uplifted Sales") in
  mret (GoFigure fig_uplift).

(** The six figures the callback returns (line 179), in order. *)
Record Figures : Type := {
  fig_adstock : Figure num;
  fig_diminishing : Figure num;
  fig_sales_ad : Figure num;
  fig_budget_product : Figure num;
  fig_budget_ad : Figure num;
  fig_uplift : Figure num
}.

(** [update_graphs] (lines 115-179). [df] is the module-level frame. *)
Definition update_graphs (df : loc) (objective : string)
    (selected_products : list string) (budget_threshold alpha beta : num)
    (start_date end_date : Z) : M num Figures :=
  filtered_df ← filter_stage df selected_products budget_threshold
                  start_date end_date;
  transform_stage filtered_df alpha beta;;
  fig_adstock ← adstock_graph filtered_df;
  fig_diminishing ← diminishing_graph filtered_df;
  fig_sales_ad ← sales_ad_graph filtered_df;
  fig_budget_product ← budget_product_graph filtered_df;
  fig_budget_ad ← budget_ad_graph filtered_df;
  fig_uplift ← uplift_graph filtered_df alpha;
  mret {| fig_adstock := fig_adstock;
          fig_diminishing := fig_diminishing;
          fig_sales_ad := fig_sales_ad;
          fig_budget_product := fig_budget_product;
          fig_budget_ad := fig_budget_ad;
          fig_uplift := fig_uplift |}.

End Callback.

Arguments Figures : clear implicits.

(** ** Instances of the arithmetic *)

(** binary64, the arithmetic of Python floats and numpy [float64]. An
    integer column value below [2^53] enters this arithmetic by an exact
    conversion, so it is written as the binary64 value it converts to. *)
#[global] Instance float_number : Number float := {|
  add := PrimFloat.add;
  mul := PrimFloat.mul;
  ge := λ x y, PrimFloat.leb y x;
  one := 1%float
|}.



(** [x ** e] on the reals where it is a real number: [x > 0], or [x = 0]
    and [e >= 0]. Elsewhere binary64 yields [inf] or [nan], which no real
    number stands for; the value given there is not used. *)
Definition Rpow (x e : R) : R :=
  if Req_dec_T x 0 then (if Req_dec_T e 0 then 1%R else 0%R) else Rpower x e.

#[global] Instance real_power : Power R := Rpow.

(** Integers: what the callback computes on the integer columns when the
    sliders hand it the integer [1], as long as no value leaves the range
    of numpy's [int64]. [**] is meant for exponents [>= 0] only. *)
#[global] Instance int_number : Number Z := {|
  add := Z.add;
  mul := Z.mul;
  ge := Z.geb;
  one := 1%Z
|}.

#[global] Instance int_power : Power Z := Z.pow.

(** ** A small dataset for examples: three products, January to March *)

Definition sample_row (product : string) (date sales paid banner : Z) : Row Z :=
  {| Product := product; Date := date; Sales := sales;
     Paid_Search_Spend := paid; Banner_Ads_Spend := banner;
     Impressions_Paid_Search := 10000; Impressions_Banner_Ads := 8000;
     Clicks_Paid_Search := 500; Clicks_Banner_Ads := 300;
     Conversions_Paid_Search := 50; Conversions_Banner_Ads := 30;
     Customer_Loyalty := 0; Perfect_Store_Score := 1 |}%Z.

Definition sample_frame : DataFrame Z :=
  {| rows := [sample_row "A" 20230131 1000 100 50;
              sample_row "B" 20230228 2000 200 60;
              sample_row "C" 20230331 3000 300 70];
     assigned := ∅ |}.

(** The store at start-up: [df] is the only frame. *)
Definition sample_df : loc := 1%positive.
Definition sample_store : gmap loc (DataFrame Z) := {[sample_df := sample_frame]}.

(** ** The filter as the specification words it *)

Section Retained.
Context {num : Type} `{Number num}.

(** A row is retained iff [date_lower <= row.date <= date_upper] and
    [row.product in allowed_products] and
    [row.paid_search_spend + row.banner_ads_spend >= min_combined_spend]. *)
Definition retained (allowed_products : list string) (min_combined_spend : num)
    (date_lower date_upper : Z) (row : Row num) : Prop :=
  (date_lower ≤ Date row ≤ date_upper)%Z
  ∧ Product row ∈ allowed_products
  ∧ ge (add (Paid_Search_Spend row) (Banner_Ads_Spend row)) min_combined_spend
    = true.

#[global] Instance retained_dec allowed_products min_combined_spend
    date_lower date_upper (row : Row num) :
  Decision (retained allowed_products min_combined_spend
              date_lower date_upper row).
Proof. unfold retained. apply _. Defined.

End Retained.

(** ** Footprint of a computation on the store *)

(** [m] leaves every object other than [l] as it was, whether it returns
    or raises. *)
Definition touches_only {num A : Type} (l : loc) (m : M num A) : Prop :=
  ∀ (h : gmap loc (DataFrame num)) (l' : loc), l' ≠ l → (m h).2 !! l' = h !! l'.

(** ** The frames of a call, written out *)

Section CallFrames.
Context {num : Type} `{Number num} `{Power num}.

(** The frame line 118 binds to [filtered_df], from the frame [df] holds. *)
Definition filtered_frame (f : DataFrame num) (selected_products : list string)
    (budget_threshold : num) (start_date end_date : Z) : DataFrame num :=
  let m1 := (λ r, (Date r >=? start_date)%Z && (Date r <=? end_date)%Z)
              <$> rows f in
  let f1 := {| rows := mask_select m1 (rows f);
               assigned := mask_select m1 <$> assigned f |} in
  let m2 := (λ r, bool_decide (Product r ∈ selected_products)) <$> rows f1 in
  let f2 := {| rows := mask_select m2 (rows f1);
               assigned := mask_select m2 <$> assigned f1 |} in
  let m3 := (λ r, ge (add (Paid_Search_Spend r) (Banner_Ads_Spend r))
                     budget_threshold) <$> rows f2 in
  {| rows := mask_select m3 (rows f2);
     assigned := mask_select m3 <$> assigned f2 |}.

(** The same frame after the four assignments of lines 127-132, [a1] and
    [a2] being what the two calls of [adstock] returned. *)
Definition transformed_frame (f : DataFrame num) (a1 a2 : list num)
    (alpha beta : num) : DataFrame num :=
  {| rows := rows f;
     assigned :=
       <["Diminishing_Banner_Ads" :=
           series_pow (Banner_Ads_Spend <$> rows f) beta]>
       (<["Diminishing_Paid_Search" :=
            series_pow (Paid_Search_Spend <$> rows f) alpha]>
        (<["Adstock_Banner_Ads" := a2]>
         (<["Adstock_Paid_Search" := a1]> (assigned f)))) |}.

(** The six figures built from a frame [f] that has the four columns. *)
Definition figures_of (f : DataFrame num) (a1 a2 : list num)
    (alpha beta : num) : Figures num :=
  let dates := Date <$> rows f in
  let paid := Paid_Search_Spend <$> rows f in
  let banner := Banner_Ads_Spend <$> rows f in
  let sales := Sales <$> rows f in
  {| fig_adstock := GoFigure
       [Bar dates paid "Initial Advertising (Paid Search)";
        Bar dates banner "Initial Advertising (Banner Ads)";
        Scatter dates a1 "Adstocked Advertising (Paid Search)";
        Scatter dates a2 "Adstocked Advertising (Banner Ads)"];
     fig_diminishing := GoFigure
       [Scatter dates (series_pow paid alpha) "Diminishing Paid Search";
        Scatter dates (series_pow banner beta) "Diminishing Banner Ads"];
     fig_sales_ad := GoFigure
       [Scatter dates sales "Sales";
        Scatter dates paid "Paid Search Spend";
        Scatter dates banner "Banner Ads Spend"];
     fig_budget_product :=
       PxLine (transformed_frame f a1 a2 alpha beta) "Date"
              ["Paid_Search_Spend"; "Banner_Ads_Spend"] "Product";
     fig_budget_ad := GoFigure
       [Scatter dates paid "Paid Search Spend";
        Scatter dates banner "Banner Ads Spend"];
     fig_uplift := GoFigure
       [Scatter dates sales "Actual Sales";
        Scatter dates (uplift sales alpha) "Uplifted Sales"] |}.

(** The traces of a figure; a [px.line] figure is kept as its frame. *)
Definition figure_traces (fig : Figure num) : list (Trace num) :=
  match fig with
  | GoFigure data => data
  | PxLine _ _ _ _ => []
  end.

Definition all_traces (figs : Figures num) : list (Trace num) :=
  figure_traces (fig_adstock figs) ++ figure_traces (fig_diminishing figs)
  ++ figure_traces (fig_sales_ad figs) ++ figure_traces (fig_budget_product figs)
  ++ figure_traces (fig_budget_ad figs) ++ figure_traces (fig_uplift figs).

(** A trace whose [x] and [y] both have [n] points. *)
Definition aligned (n : nat) (t : Trace num) : Prop :=
  match t with
  | Bar x y _ | Scatter x y _ => length x = n ∧ length y = n
  end.

End CallFrames.

(** ** The defaults of the layout *)

(** Line 13 *)
Definition products : list string :=
  ["Pet Food"; "Confectionary"; "Other Food Product"].

(** [df['Date'].min()] and [df['Date'].max()] (lines 78-79); [None] is
    [NaT], the minimum and maximum of a column without values. *)
Definition date_min (dates : list Z) : option Z :=
  match dates with
  | [] => None
  | d :: dates' => Some (foldr Z.min d dates')
  end.

Definition date_max (dates : list Z) : option Z :=
  match dates with
  | [] => None
  | d :: dates' => Some (foldr Z.max d dates')
  end.

(** * Properties *)

(** ** The loop of [adstock] *)

Section AdstockFacts.
Context {num : Type} `{Number num}.
Implicit Types (series rest : list num) (alpha beta : num).

Lemma length_carry alpha beta prev rest :
  length (carry alpha beta prev rest) = length rest.
Proof.
  revert prev. induction rest as [|x rest IH]; intros prev; simpl; [done|].
  by rewrite IH.
Qed.

(** The closed form obeys the recurrence at every index. *)
Lemma carry_step alpha beta x0 rest i x prev :
  (x0 :: rest) !! S i = Some x →
  (x0 :: carry alpha beta x0 rest) !! i = Some prev →
  (x0 :: carry alpha beta x0 rest) !! S i
    = Some (add x (mul (mul alpha prev) beta)).
Proof.
  revert x0 i. induction rest as [|y rest IH]; intros x0 i Hx Hprev.
  - destruct i; discriminate.
  - destruct i as [|i].
    + simpl in *. by simplify_eq.
    + simpl in Hx, Hprev |- *. by apply IH.
Qed.

(** Loop invariant: before the iteration for index [k], [result] holds
    the first [k] values of the closed form. *)
Lemma adstock_loop alpha beta x0 rest n k :
  1 ≤ k → k + n = length (x0 :: rest) →
  for_range (adstock_body (x0 :: rest) alpha beta) (seq k n)
            (take k (x0 :: carry alpha beta x0 rest))
  = Ok (x0 :: carry alpha beta x0 rest).
Proof.
  set (series := x0 :: rest). set (full := x0 :: carry alpha beta x0 rest).
  assert (Hlen : length full = length series).
  { subst full series. simpl. by rewrite length_carry. }
  revert k. induction n as [|n IH]; intros k Hk Hkn.
  - simpl. rewrite take_ge; [done | lia].
  - destruct (lookup_lt_is_Some_2 series k) as [x Hx]; [lia|].
    destruct (lookup_lt_is_Some_2 full (k - 1)) as [prev Hprev]; [lia|].
    assert (Hfull : full !! k = Some (add x (mul (mul alpha prev) beta))).
    { destruct k as [|k]; [lia|]. apply carry_step; [done|].
      by replace (S k - 1) with k in Hprev by lia. }
    simpl. unfold adstock_body at 1, iloc, list_getitem. rewrite Hx. simpl.
    rewrite lookup_take_lt by lia. rewrite Hprev. simpl.
    rewrite <- (take_S_r _ _ _ Hfull). apply IH; lia.
Qed.

(** On a non-empty series [adstock] returns the closed form. *)
Lemma adstock_carry alpha beta x0 rest :
  adstock (x0 :: rest) alpha beta = Ok (x0 :: carry alpha beta x0 rest).
Proof.
  unfold adstock, iloc, range. simpl.
  rewrite Nat.sub_0_r.
  change [x0] with (take 1 (x0 :: carry alpha beta x0 rest)).
  apply adstock_loop; simpl; lia.
Qed.

Lemma adstock_nil alpha beta : adstock [] alpha beta = Raise IndexError.
Proof. reflexivity. Qed.


End AdstockFacts.

(** ** Boolean masks *)

Section MaskFacts.
Context {A : Type}.

Lemma mask_select_filter (f : A → bool) (P : A → Prop)
    `{!∀ x, Decision (P x)} (l : list A) :
  (∀ x, f x = true ↔ P x) → mask_select (f <$> l) l = filter P l.
Proof.
  intros Hf. induction l as [|x l IH]; [done|].
  rewrite fmap_cons. cbn [mask_select]. rewrite IH. destruct (f x) eqn:Hx.
  - rewrite filter_cons_True; [done | by apply Hf].
  - rewrite filter_cons_False; [done|]. rewrite <- Hf. congruence.
Qed.

Lemma filter_never (P : A → Prop) `{!∀ x, Decision (P x)} (l : list A) :
  (∀ x, ¬ P x) → filter P l = [].
Proof.
  intros HP. induction l as [|x l IH]; [done|].
  by rewrite filter_cons_False.
Qed.

Lemma zip_with_fmap_same {B C D} (op : B → C → D) (f : A → B) (g : A → C)
    (l : list A) :
  zip_with op (f <$> l) (g <$> l) = (λ x, op (f x) (g x)) <$> l.
Proof.
  induction l as [|x l IH]; [done|].
  rewrite !fmap_cons. cbn [zip_with]. by rewrite IH.
Qed.

End MaskFacts.

(** ** Running the store operations *)

Section StoreFacts.
Context {num : Type} `{Number num} `{Power num}.
Implicit Types (h : gmap loc (DataFrame num)) (f : DataFrame num) (l : loc).

Lemma run_bind {A B} (m : M num A) (k : A → M num B) h :
  (m ≫= k) h = match m h with
               | (Ok a, h') => k a h'
               | (Raise e, h') => (Raise e, h')
               end.
Proof. reflexivity. Qed.

Lemma run_ret {A} (a : A) h : (mret a : M num A) h = (Ok a, h).
Proof. reflexivity. Qed.

Lemma read_run h l f : h !! l = Some f → read l h = (Ok f, h).
Proof. intros Hl. unfold read. by rewrite Hl. Qed.

Lemma read_dangling h l : h !! l = None → read l h = (Raise Dangling, h).
Proof. intros Hl. unfold read. by rewrite Hl. Qed.

Lemma getcol_run {A} (column : Row num → A) h l f :
  h !! l = Some f → getcol column l h = (Ok (column <$> rows f), h).
Proof. intros Hl. unfold getcol. by rewrite run_bind, (read_run _ _ f). Qed.

Lemma getcol_assigned_run label h l f s :
  h !! l = Some f → assigned f !! label = Some s →
  getcol_assigned label l h = (Ok s, h).
Proof.
  intros Hl Hs. unfold getcol_assigned.
  by rewrite run_bind, (read_run _ _ f), Hs.
Qed.

Lemma getitem_mask_run h l f mask :
  h !! l = Some f → length mask = length (rows f) →
  getitem_mask l mask h
  = (Ok (fresh (dom h)),
     <[fresh (dom h) := {| rows := mask_select mask (rows f);
                           assigned := mask_select mask <$> assigned f |}]> h).
Proof.
  intros Hl Hlen. unfold getitem_mask.
  rewrite run_bind, (read_run _ _ f) by done. by rewrite decide_True.
Qed.

Lemma setitem_run h l f label values :
  h !! l = Some f → length values = length (rows f) →
  setitem l label values h
  = (Ok tt, <[l := {| rows := rows f;
                      assigned := <[label := values]> (assigned f) |}]> h).
Proof.
  intros Hl Hlen. unfold setitem.
  rewrite run_bind, (read_run _ _ f) by done. by rewrite decide_True.
Qed.

Lemma fresh_lookup h : h !! fresh (dom h) = None.
Proof. apply not_elem_of_dom, is_fresh. Qed.

Lemma insert_fresh_subseteq h f : h ⊆ <[fresh (dom h) := f]> h.
Proof. apply insert_subseteq, fresh_lookup. Qed.

End StoreFacts.

(** ** The filter stage *)

Section FilterFacts.
Context {num : Type} `{Number num} `{Power num}.
Implicit Types (h : gmap loc (DataFrame num)) (f : DataFrame num) (l : loc).
Implicit Types (rs : list (Row num)).

Lemma date_mask rs start_date end_date :
  mask_and (date_ge (Date <$> rs) start_date) (date_le (Date <$> rs) end_date)
  = (λ r, (Date r >=? start_date)%Z && (Date r <=? end_date)%Z) <$> rs.
Proof.
  unfold mask_and, date_ge, date_le.
  rewrite <- !list_fmap_compose. apply zip_with_fmap_same.
Qed.

Lemma product_mask rs selected_products :
  isin (Product <$> rs) selected_products
  = (λ r, bool_decide (Product r ∈ selected_products)) <$> rs.
Proof. unfold isin. by rewrite <- list_fmap_compose. Qed.

Lemma spend_mask rs budget_threshold :
  series_ge (series_add (Paid_Search_Spend <$> rs) (Banner_Ads_Spend <$> rs))
            budget_threshold
  = (λ r, ge (add (Paid_Search_Spend r) (Banner_Ads_Spend r)) budget_threshold)
    <$> rs.
Proof.
  unfold series_ge, series_add.
  rewrite zip_with_fmap_same. by rewrite <- list_fmap_compose.
Qed.

(** The three selections keep exactly the retained rows, in order. *)
Lemma three_filters rs selected_products budget_threshold start_date end_date :
  filter (λ r, ge (add (Paid_Search_Spend r) (Banner_Ads_Spend r))
                  budget_threshold = true)
    (filter (λ r, Product r ∈ selected_products)
       (filter (λ r, (start_date ≤ Date r ≤ end_date)%Z) rs))
  = filter (retained selected_products budget_threshold start_date end_date) rs.
Proof.
  rewrite !list_filter_filter. apply list_filter_iff.
  intros r. unfold retained. tauto.
Qed.

Lemma filter_stage_run h df f selected_products budget_threshold
    start_date end_date :
  h !! df = Some f →
  ∃ l f' h',
    filter_stage df selected_products budget_threshold start_date end_date h
      = (Ok l, h')
    ∧ h' !! l = Some f'
    ∧ rows f' = filter (retained selected_products budget_threshold
                          start_date end_date) (rows f)
    ∧ h !! l = None
    ∧ h ⊆ h'.
Proof.
  intros Hdf. unfold filter_stage.
  rewrite run_bind, (getcol_run _ _ _ f) by done.
  rewrite run_bind, (getcol_run _ _ _ f) by done.
  rewrite date_mask.
  rewrite run_bind, (getitem_mask_run _ _ f) by (by rewrite ?length_fmap).
  set (l1 := fresh (dom h)). set (f1 := Build_DataFrame _ _).
  set (h1 := <[l1 := f1]> h).
  assert (H1 : h1 !! l1 = Some f1) by apply lookup_insert_eq.
  rewrite run_bind, (getcol_run _ _ _ f1) by done.
  rewrite product_mask.
  rewrite run_bind, (getitem_mask_run _ _ f1) by (by rewrite ?length_fmap).
  set (l2 := fresh (dom h1)). set (f2 := Build_DataFrame _ _).
  set (h2 := <[l2 := f2]> h1).
  assert (H2 : h2 !! l2 = Some f2) by apply lookup_insert_eq.
  rewrite run_bind, (getcol_run _ _ _ f2) by done.
  rewrite run_bind, (getcol_run _ _ _ f2) by done.
  rewrite spend_mask.
  rewrite (getitem_mask_run _ _ f2) by (by rewrite ?length_fmap).
  set (l3 := fresh (dom h2)). set (f3 := Build_DataFrame _ _).
  assert (Hsub : h ⊆ h2).
  { trans h1; apply insert_fresh_subseteq. }
  exists l3, f3, (<[l3 := f3]> h2). split_and!.
  - done.
  - apply lookup_insert_eq.
  - subst f3 f2 f1. cbn [rows].
    rewrite (mask_select_filter
      (λ r, (Date r >=? start_date)%Z && (Date r <=? end_date)%Z)
      (λ r, (start_date ≤ Date r ≤ end_date)%Z)).
    2:{ intros r. cbv beta. rewrite andb_true_iff, Z.geb_le, Z.leb_le. tauto. }
    rewrite (mask_select_filter
      (λ r, bool_decide (Product r ∈ selected_products))
      (λ r, Product r ∈ selected_products)).
    2:{ intros r. cbv beta. apply bool_decide_eq_true. }
    rewrite (mask_select_filter
      (λ r, ge (add (Paid_Search_Spend r) (Banner_Ads_Spend r)) budget_threshold)
      (λ r, ge (add (Paid_Search_Spend r) (Banner_Ads_Spend r))
               budget_threshold = true)) by done.
    apply three_filters.
  - eapply lookup_weaken_None; [apply (fresh_lookup h2) | done].
  - trans h2; [done | apply insert_fresh_subseteq].
Qed.

Lemma filter_stage_dangling h df selected_products budget_threshold
    start_date end_date :
  h !! df = None →
  filter_stage df selected_products budget_threshold start_date end_date h
  = (Raise Dangling, h).
Proof.
  intros Hdf. unfold filter_stage, getcol.
  by rewrite !run_bind, read_dangling.
Qed.

End FilterFacts.

(** ** The transform stage *)

Section TransformFacts.
Context {num : Type} `{Number num} `{Power num}.
Implicit Types (h : gmap loc (DataFrame num)) (f : DataFrame num) (l : loc).

Lemma adstock_fmap_ok {A} (column : A → num) (rs : list A) alpha beta :
  rs ≠ [] →
  ∃ values, adstock (column <$> rs) alpha beta = Ok values
            ∧ length values = length rs.
Proof.
  intros Hrs. destruct rs as [|r rs]; [done|].
  rewrite fmap_cons, adstock_carry. eexists; split; [done|].
  simpl. by rewrite length_carry, length_fmap.
Qed.

(** On a frame with at least one row the four assignments succeed and
    change that frame only. *)
Lemma transform_stage_run h l f alpha beta :
  h !! l = Some f → rows f ≠ [] →
  ∃ a1 a2,
    adstock (Paid_Search_Spend <$> rows f) alpha beta = Ok a1
    ∧ adstock (Banner_Ads_Spend <$> rows f) alpha beta = Ok a2
    ∧ transform_stage l alpha beta h
      = (Ok tt,
         <[l := {| rows := rows f;
                   assigned :=
                     <["Diminishing_Banner_Ads" :=
                         series_pow (Banner_Ads_Spend <$> rows f) beta]>
                     (<["Diminishing_Paid_Search" :=
                          series_pow (Paid_Search_Spend <$> rows f) alpha]>
                      (<["Adstock_Banner_Ads" := a2]>
                       (<["Adstock_Paid_Search" := a1]> (assigned f)))) |}]> h).
Proof.
  intros Hl Hrows.
  destruct (adstock_fmap_ok Paid_Search_Spend (rows f) alpha beta Hrows)
    as (a1 & Ha1 & Hlen1).
  destruct (adstock_fmap_ok Banner_Ads_Spend (rows f) alpha beta Hrows)
    as (a2 & Ha2 & Hlen2).
  exists a1, a2. split_and!; [done..|].
  unfold transform_stage.
  rewrite run_bind, (getcol_run _ _ _ f) by done.
  rewrite run_bind. unfold lift at 1. rewrite Ha1.
  rewrite run_bind, (setitem_run _ _ f) by done.
  set (f1 := Build_DataFrame (rows f) _).
  rewrite run_bind, (getcol_run _ _ _ f1) by apply lookup_insert_eq.
  rewrite run_bind. unfold lift at 1. cbn [rows f1]. rewrite Ha2.
  rewrite run_bind, (setitem_run _ _ f1) by (done || apply lookup_insert_eq).
  set (f2 := Build_DataFrame (rows f1) _).
  rewrite run_bind, (getcol_run _ _ _ f2) by apply lookup_insert_eq.
  rewrite run_bind, (setitem_run _ _ f2)
    by (apply lookup_insert_eq || (unfold series_pow; by rewrite !length_fmap)).
  set (f3 := Build_DataFrame (rows f2) _).
  rewrite run_bind, (getcol_run _ _ _ f3) by apply lookup_insert_eq.
  rewrite (setitem_run _ _ f3)
    by (apply lookup_insert_eq || (unfold series_pow; by rewrite !length_fmap)).
  by rewrite !insert_insert_eq.
Qed.

(** On a frame without rows the first call of [adstock] raises. *)
Lemma transform_stage_empty h l f alpha beta :
  h !! l = Some f → rows f = [] →
  transform_stage l alpha beta h = (Raise IndexError, h).
Proof.
  intros Hl Hrows. unfold transform_stage.
  rewrite run_bind, (getcol_run _ _ _ f) by done.
  rewrite Hrows. reflexivity.
Qed.

End TransformFacts.

(** ** The figures *)

Section FigureFacts.
Context {num : Type} `{Number num} `{Power num}.
Implicit Types (h : gmap loc (DataFrame num)) (f : DataFrame num) (l : loc).

Ltac column f := rewrite run_bind, (getcol_run _ _ _ f) by done.
Ltac added f s := rewrite run_bind, (getcol_assigned_run _ _ _ f s) by done.

Lemma adstock_graph_run h l f a1 a2 :
  h !! l = Some f →
  assigned f !! "Adstock_Paid_Search" = Some a1 →
  assigned f !! "Adstock_Banner_Ads" = Some a2 →
  adstock_graph l h
  = (Ok (GoFigure
           [Bar (Date <$> rows f) (Paid_Search_Spend <$> rows f)
                "Initial Advertising (Paid Search)";
            Bar (Date <$> rows f) (Banner_Ads_Spend <$> rows f)
                "Initial Advertising (Banner Ads)";
            Scatter (Date <$> rows f) a1 "Adstocked Advertising (Paid Search)";
            Scatter (Date <$> rows f) a2 "Adstocked Advertising (Banner Ads)"]),
     h).
Proof.
  intros Hl H1 H2. unfold adstock_graph.
  column f. column f. column f. column f.
  column f. added f a1. column f. added f a2. reflexivity.
Qed.

Lemma diminishing_graph_run h l f d1 d2 :
  h !! l = Some f →
  assigned f !! "Diminishing_Paid_Search" = Some d1 →
  assigned f !! "Diminishing_Banner_Ads" = Some d2 →
  diminishing_graph l h
  = (Ok (GoFigure [Scatter (Date <$> rows f) d1 "Diminishing Paid Search";
                   Scatter (Date <$> rows f) d2 "Diminishing Banner Ads"]),
     h).
Proof.
  intros Hl H1 H2. unfold diminishing_graph.
  column f. added f d1. column f. added f d2. reflexivity.
Qed.

Lemma sales_ad_graph_run h l f :
  h !! l = Some f →
  sales_ad_graph l h
  = (Ok (GoFigure
           [Scatter (Date <$> rows f) (Sales <$> rows f) "Sales";
            Scatter (Date <$> rows f) (Paid_Search_Spend <$> rows f)
                    "Paid Search Spend";
            Scatter (Date <$> rows f) (Banner_Ads_Spend <$> rows f)
                    "Banner Ads Spend"]),
     h).
Proof.
  intros Hl. unfold sales_ad_graph.
  column f. column f. column f. column f. column f. column f. reflexivity.
Qed.

Lemma budget_product_graph_run h l f :
  h !! l = Some f →
  budget_product_graph l h
  = (Ok (PxLine f "Date" ["Paid_Search_Spend"; "Banner_Ads_Spend"] "Product"),
     h).
Proof.
  intros Hl. unfold budget_product_graph.
  by rewrite run_bind, (read_run _ _ f).
Qed.

Lemma budget_ad_graph_run h l f :
  h !! l = Some f →
  budget_ad_graph l h
  = (Ok (GoFigure
           [Scatter (Date <$> rows f) (Paid_Search_Spend <$> rows f)
                    "Paid Search Spend";
            Scatter (Date <$> rows f) (Banner_Ads_Spend <$> rows f)
                    "Banner Ads Spend"]),
     h).
Proof.
  intros Hl. unfold budget_ad_graph.
  column f. column f. column f. column f. reflexivity.
Qed.

Lemma uplift_graph_run h l f alpha :
  h !! l = Some f →
  uplift_graph l alpha h
  = (Ok (GoFigure
           [Scatter (Date <$> rows f) (Sales <$> rows f) "Actual Sales";
            Scatter (Date <$> rows f) (uplift (Sales <$> rows f) alpha)
                    "Uplifted Sales"]),
     h).
Proof.
  intros Hl. unfold uplift_graph.
  column f. column f. column f. column f. reflexivity.
Qed.

End FigureFacts.

(** ** The callback as a whole *)

Section CallbackFacts.
Context {num : Type} `{Number num} `{Power num}.
Implicit Types (h : gmap loc (DataFrame num)) (f : DataFrame num) (l : loc).

(** When at least one row survives the filter, the callback returns the
    six figures below, built from the surviving rows [rs]. *)
Lemma update_graphs_run h df f objective selected_products budget_threshold
    alpha beta start_date end_date :
  h !! df = Some f →
  let rs := filter (retained selected_products budget_threshold
                      start_date end_date) (rows f) in
  let dates := Date <$> rs in
  let paid := Paid_Search_Spend <$> rs in
  let banner := Banner_Ads_Spend <$> rs in
  let sales := Sales <$> rs in
  rs ≠ [] →
  ∃ a1 a2 frame h',
    adstock paid alpha beta = Ok a1
    ∧ adstock banner alpha beta = Ok a2
    ∧ rows frame = rs
    ∧ update_graphs df objective selected_products budget_threshold
        alpha beta start_date end_date h
      = (Ok {| fig_adstock := GoFigure
                 [Bar dates paid "Initial Advertising (Paid Search)";
                  Bar dates banner "Initial Advertising (Banner Ads)";
                  Scatter dates a1 "Adstocked Advertising (Paid Search)";
                  Scatter dates a2 "Adstocked Advertising (Banner Ads)"];
               fig_diminishing := GoFigure
                 [Scatter dates (series_pow paid alpha) "Diminishing Paid Search";
                  Scatter dates (series_pow banner beta) "Diminishing Banner Ads"];
               fig_sales_ad := GoFigure
                 [Scatter dates sales "Sales";
                  Scatter dates paid "Paid Search Spend";
                  Scatter dates banner "Banner Ads Spend"];
               fig_budget_product :=
                 PxLine frame "Date" ["Paid_Search_Spend"; "Banner_Ads_Spend"]
                        "Product";
               fig_budget_ad := GoFigure
                 [Scatter dates paid "Paid Search Spend";
                  Scatter dates banner "Banner Ads Spend"];
               fig_uplift := GoFigure
                 [Scatter dates sales "Actual Sales";
                  Scatter dates (uplift sales alpha) "Uplifted Sales"] |},
         h').
Proof.
  intros Hdf rs dates paid banner sales Hrs.
  destruct (filter_stage_run h df f selected_products budget_threshold
              start_date end_date Hdf)
    as (l & f' & h1 & Hrun & Hl & Hrows & _ & _).
  fold rs in Hrows.
  destruct (transform_stage_run h1 l f' alpha beta Hl) as (a1 & a2 & Ha1 & Ha2 & Htr).
  { by rewrite Hrows. }
  rewrite Hrows in Ha1, Ha2, Htr.
  set (frame := Build_DataFrame rs _) in Htr.
  exists a1, a2, frame, (<[l := frame]> h1). split_and!; [done..|].
  assert (Hframe : <[l := frame]> h1 !! l = Some frame) by apply lookup_insert_eq.
  unfold update_graphs.
  rewrite run_bind, Hrun. rewrite run_bind, Htr.
  rewrite run_bind, (adstock_graph_run _ _ frame a1 a2);
    [|done || by (subst frame; cbn [assigned]; simplify_map_eq)..].
  rewrite run_bind, (diminishing_graph_run _ _ frame
                       (series_pow paid alpha) (series_pow banner beta));
    [|done || by (subst frame; cbn [assigned]; simplify_map_eq)..].
  rewrite run_bind, (sales_ad_graph_run _ _ frame) by done.
  rewrite run_bind, (budget_product_graph_run _ _ frame) by done.
  rewrite run_bind, (budget_ad_graph_run _ _ frame) by done.
  rewrite run_bind, (uplift_graph_run _ _ frame) by done.
  reflexivity.
Qed.

(** When no row survives, the first call of [adstock] raises. *)
Lemma update_graphs_empty h df f objective selected_products budget_threshold
    alpha beta start_date end_date :
  h !! df = Some f →
  filter (retained selected_products budget_threshold start_date end_date)
         (rows f) = [] →
  ∃ h', update_graphs df objective selected_products budget_threshold
          alpha beta start_date end_date h
        = (Raise IndexError, h').
Proof.
  intros Hdf Hrs.
  destruct (filter_stage_run h df f selected_products budget_threshold
              start_date end_date Hdf)
    as (l & f' & h1 & Hrun & Hl & Hrows & _ & _).
  rewrite Hrs in Hrows. exists h1.
  unfold update_graphs.
  rewrite run_bind, Hrun. rewrite run_bind.
  by rewrite (transform_stage_empty _ _ f').
Qed.

End CallbackFacts.

(** ** What a call may change *)

Section Footprint.
Context {num : Type} `{Number num} `{Power num}.
Implicit Types (h : gmap loc (DataFrame num)) (f : DataFrame num) (l : loc).

Lemma touches_only_ret {A} l (a : A) : touches_only l (mret a : M num A).
Proof. by intros h l' _. Qed.

Lemma touches_only_raise {A} l e : touches_only l (raise e : M num A).
Proof. by intros h l' _. Qed.

Lemma touches_only_lift {A} l (r : outcome A) : touches_only l (lift r : M num A).
Proof. by intros h l' _. Qed.

Lemma touches_only_read l l0 : touches_only (num := num) l (read l0).
Proof. intros h l' _. unfold read. by destruct (h !! l0). Qed.

Lemma touches_only_write l f : touches_only l (write l f).
Proof. intros h l' Hne. unfold write. simpl. by rewrite lookup_insert_ne. Qed.

Lemma touches_only_bind {A B} l (m : M num A) (k : A → M num B) :
  touches_only l m → (∀ a, touches_only l (k a)) → touches_only l (m ≫= k).
Proof.
  intros Hm Hk h l' Hne. rewrite run_bind.
  specialize (Hm h l' Hne). destruct (m h) as [[a|e] h1]; simpl in *.
  - by rewrite Hk.
  - done.
Qed.

Lemma touches_only_getcol {A} l l0 (column : Row num → A) :
  touches_only l (getcol column l0).
Proof.
  apply touches_only_bind; [apply touches_only_read|].
  intros f. apply touches_only_ret.
Qed.

Lemma touches_only_getcol_assigned l l0 label :
  touches_only (num := num) l (getcol_assigned label l0).
Proof.
  apply touches_only_bind; [apply touches_only_read|].
  intros f. destruct (assigned f !! label);
    [apply touches_only_ret | apply touches_only_raise].
Qed.

Lemma touches_only_setitem l label (values : list num) :
  touches_only l (setitem l label values).
Proof.
  apply touches_only_bind; [apply touches_only_read|].
  intros f. case_decide; [apply touches_only_write | apply touches_only_raise].
Qed.

Ltac footprint :=
  repeat first
    [ apply touches_only_getcol
    | apply touches_only_getcol_assigned
    | apply touches_only_setitem
    | apply touches_only_read
    | apply touches_only_lift
    | apply touches_only_ret
    | apply touches_only_bind; [|intros ?] ].

Lemma touches_only_transform_stage l alpha beta :
  touches_only l (transform_stage l alpha beta).
Proof. unfold transform_stage. footprint. Qed.

Lemma touches_only_graphs l alpha :
  touches_only (num := num) l (adstock_graph l)
  ∧ touches_only (num := num) l (diminishing_graph l)
  ∧ touches_only (num := num) l (sales_ad_graph l)
  ∧ touches_only (num := num) l (budget_product_graph l)
  ∧ touches_only (num := num) l (budget_ad_graph l)
  ∧ touches_only (num := num) l (uplift_graph l alpha).
Proof.
  unfold adstock_graph, diminishing_graph, sales_ad_graph,
    budget_product_graph, budget_ad_graph, uplift_graph.
  split_and!; footprint.
Qed.

(** Every object of the store the call started from is unchanged when
    the call ends, whether it returns or raises. *)
Lemma update_graphs_frame h df objective selected_products budget_threshold
    alpha beta start_date end_date :
  h ⊆ (update_graphs df objective selected_products budget_threshold
         alpha beta start_date end_date h).2.
Proof.
  unfold update_graphs. rewrite run_bind.
  destruct (h !! df) as [f|] eqn:Hdf.
  - destruct (filter_stage_run h df f selected_products budget_threshold
                start_date end_date Hdf)
      as (l & f' & h1 & -> & Hl & _ & Hfresh & Hsub).
    destruct (touches_only_graphs l alpha) as (Ha & Hd & Hs & Hp & Hb & Hu).
    match goal with
    | |- _ ⊆ (?rest h1).2 =>
        assert (Hrest : touches_only l rest)
    end.
    { apply touches_only_bind; [apply touches_only_transform_stage|].
      intros _. footprint; done. }
    apply map_subseteq_spec. intros l' x Hx.
    rewrite Hrest.
    + by eapply lookup_weaken.
    + intros ->. congruence.
  - by rewrite filter_stage_dangling.
Qed.

End Footprint.

(** ** Power on the reals *)

Section RealPower.
Local Open Scope R_scope.

Lemma Rpow_nonneg x e : 0 <= x → 0 <= Rpow x e.
Proof.
  intros Hx. unfold Rpow.
  destruct (Req_dec_T x 0); [destruct (Req_dec_T e 0); lra|].
  left. apply exp_pos.
Qed.

Lemma Rpow_bounded x e : 0 <= x → 0 < e <= 1 → Rpow x e <= Rmax 1 x.
Proof.
  intros Hx He. unfold Rpow.
  destruct (Req_dec_T x 0) as [->|Hx0].
  - destruct (Req_dec_T e 0); [lra|]. apply Rle_trans with 1; [lra|].
    apply Rmax_l.
  - destruct (Rle_dec x 1) as [Hx1|Hx1].
    + apply Rle_trans with 1; [|apply Rmax_l].
      unfold Rpower. rewrite <- exp_0.
      destruct (Req_dec_T x 1) as [->|Hne].
      * rewrite ln_1, Rmult_0_r. lra.
      * left. apply exp_increasing.
        assert (ln x < 0) by (rewrite <- ln_1; apply ln_increasing; lra).
        nra.
    + apply Rle_trans with x; [|apply Rmax_r].
      rewrite <- (Rpower_1 x) at 2 by lra.
      apply Rle_Rpower; lra.
Qed.

Lemma Rpow_half_square y : 0 < y → Rpow (y * y) 0.5 = y.
Proof.
  intros Hy. unfold Rpow.
  destruct (Req_dec_T (y * y) 0) as [H0|_]; [nra|].
  replace 0.5 with (/ 2) by lra.
  rewrite Rpower_sqrt by nra. apply sqrt_square. lra.
Qed.

End RealPower.

(** ** Examples *)

(** With both sliders at the integer [1] the carry-over is the running sum. *)
Example adstock_int : adstock [100; 200; 300]%Z 1%Z 1%Z = Ok [100; 300; 600]%Z.
Proof. reflexivity. Qed.

(** Selecting product "B" from February to March keeps the one row of
    product "B", dated in February. *)
Example filter_stage_product_B :
  (let '(r, h') :=
     filter_stage sample_df ["B"] 0%Z 20230201 20230331 sample_store in
   match r with
   | Ok l => rows <$> h' !! l
   | Raise _ => None
   end)
  = Some [sample_row "B" 20230228 2000 200 60].
Proof. vm_compute. reflexivity. Qed.

(** The base frame is still in the store, unchanged, after a call. *)
Example update_graphs_keeps_sample :
  (update_graphs sample_df "ROI" ["A"; "C"] 100%Z 1%Z 1%Z 20230101 20231231
     sample_store).2 !! sample_df
  = Some sample_frame.
Proof. vm_compute. reflexivity. Qed.

(** * The claims *)

(** C1. On every non-empty spend series, for every [alpha] and [beta] (so
    in particular for those in [0.01, 1.0]), [adstock] returns a list
    [result] with [result[0] = S[0]] and
    [result[i] = S[i] + alpha * result[i-1] * beta] for [i] in [1..n-1];
    on binary64, [adstock([100, 200, 300], 0.5, 0.5) = [100, 225, 356.25]]. *)
Theorem adstock_recurrence :
  (∀ (num : Type) (N : Number num) (series : list num) (alpha beta : num),
     series ≠ [] →
     ∃ result,
       adstock series alpha beta = Ok result
       ∧ result !! 0 = series !! 0
       ∧ ∀ i, 1 ≤ i < length series →
           ∃ x prev,
             series !! i = Some x
             ∧ result !! (i - 1) = Some prev
             ∧ result !! i = Some (add x (mul (mul alpha prev) beta)))
  ∧ adstock [100; 200; 300]%float 0.5%float 0.5%float
    = Ok [100; 225; 356.25]%float.
Proof.
  split.
  - intros num N series alpha beta Hne.
    destruct series as [|x0 rest]; [done|].
    exists (x0 :: carry alpha beta x0 rest). split_and!.
    + apply adstock_carry.
    + done.
    + intros i Hi.
      destruct (lookup_lt_is_Some_2 (x0 :: rest) i) as [x Hx]; [lia|].
      destruct (lookup_lt_is_Some_2 (x0 :: carry alpha beta x0 rest) (i - 1))
        as [prev Hprev].
      { simpl in *. rewrite length_carry. lia. }
      exists x, prev. split_and!; [done..|].
      destruct i as [|i]; [lia|].
      replace (S i - 1) with i in Hprev by lia.
      by apply carry_step.
  - vm_compute. reflexivity.
Qed.

Lemma adstock_recurrence_witness :
  ∃ result,
    adstock [100; 200; 300]%float 0.5%float 0.5%float = Ok result
    ∧ result !! 0 = [100; 200; 300]%float !! 0
    ∧ ∀ i, 1 ≤ i < length [100; 200; 300]%float →
        ∃ x prev,
          [100; 200; 300]%float !! i = Some x
          ∧ result !! (i - 1) = Some prev
          ∧ result !! i = Some (add x (mul (mul 0.5%float prev) 0.5%float)).
Proof.
  apply (proj1 adstock_recurrence float float_number
           [100; 200; 300]%float 0.5%float 0.5%float).
  discriminate.
Defined.

(** C2. [adstock] does not return the empty list on an empty series: the
    seed [series.iloc[0]] raises [IndexError]. The callback reaches this
    whenever no row survives the filter, for instance with no product
    selected. *)
Theorem adstock_empty_raises :
  (∀ (num : Type) (N : Number num) (alpha beta : num),
     adstock [] alpha beta = Raise IndexError)
  ∧ (update_graphs sample_df "Sales" [] 100%Z 1%Z 1%Z 20230101 20231231
       sample_store).1
    = Raise IndexError.
Proof. split; [reflexivity | vm_compute; reflexivity]. Qed.

(** C6. On every non-empty spend series [adstock] returns a list as long
    as the series. *)
Theorem adstock_same_length (num : Type) (N : Number num)
    (series : list num) (alpha beta : num) :
  series ≠ [] →
  ∃ result, adstock series alpha beta = Ok result
            ∧ length result = length series.
Proof.
  intros Hne. destruct series as [|x0 rest]; [done|].
  rewrite adstock_carry. eexists; split; [done|].
  simpl. by rewrite length_carry.
Qed.

Lemma adstock_same_length_witness :
  ∃ result, adstock [100; 200; 300]%float 0.5%float 0.5%float = Ok result
            ∧ length result = length [100; 200; 300]%float.
Proof.
  apply (adstock_same_length float float_number). discriminate.
Defined.

(** C3. The filter stage returns a new frame whose rows are exactly the
    rows of the dataset that satisfy the three predicates, in the order
    they have in the dataset. *)
Theorem filter_stage_retains (num : Type) (N : Number num)
    (h : gmap loc (DataFrame num)) (df : loc) (dataset : DataFrame num)
    (allowed_products : list string) (min_combined_spend : num)
    (date_lower date_upper : Z) :
  h !! df = Some dataset →
  ∃ l filtered h',
    filter_stage df allowed_products min_combined_spend date_lower date_upper h
      = (Ok l, h')
    ∧ h' !! l = Some filtered
    ∧ (∀ row, row ∈ rows filtered ↔
              row ∈ rows dataset
              ∧ (date_lower ≤ Date row ≤ date_upper)%Z
              ∧ Product row ∈ allowed_products
              ∧ ge (add (Paid_Search_Spend row) (Banner_Ads_Spend row))
                   min_combined_spend = true)
    ∧ rows filtered
      = filter (retained allowed_products min_combined_spend
                  date_lower date_upper) (rows dataset)
    ∧ sublist (rows filtered) (rows dataset).
Proof.
  intros Hdf.
  destruct (filter_stage_run h df dataset allowed_products min_combined_spend
              date_lower date_upper Hdf)
    as (l & filtered & h' & Hrun & Hl & Hrows & _ & _).
  exists l, filtered, h'. split_and!; [done..| | done |].
  - intros row. rewrite Hrows, list_elem_of_filter. unfold retained. tauto.
  - rewrite Hrows. apply sublist_filter.
Qed.

Lemma filter_stage_retains_witness :
  ∃ l filtered h',
    filter_stage sample_df ["B"] 100%Z 20230201 20230331 sample_store
      = (Ok l, h')
    ∧ h' !! l = Some filtered
    ∧ (∀ row, row ∈ rows filtered ↔
              row ∈ rows sample_frame
              ∧ (20230201 ≤ Date row ≤ 20230331)%Z
              ∧ Product row ∈ ["B"]
              ∧ ge (add (Paid_Search_Spend row) (Banner_Ads_Spend row)) 100%Z
                = true)
    ∧ rows filtered
      = filter (retained ["B"] 100%Z 20230201 20230331) (rows sample_frame)
    ∧ sublist (rows filtered) (rows sample_frame).
Proof.
  apply (filter_stage_retains Z int_number sample_store sample_df sample_frame).
  vm_compute. reflexivity.
Defined.

(** C7. With [date_lower > date_upper] the filter stage returns a frame
    without rows; it does not raise. *)
Theorem filter_stage_inverted_range (num : Type) (N : Number num)
    (h : gmap loc (DataFrame num)) (df : loc) (dataset : DataFrame num)
    (allowed_products : list string) (min_combined_spend : num)
    (date_lower date_upper : Z) :
  h !! df = Some dataset →
  (date_lower > date_upper)%Z →
  ∃ l filtered h',
    filter_stage df allowed_products min_combined_spend date_lower date_upper h
      = (Ok l, h')
    ∧ h' !! l = Some filtered
    ∧ rows filtered = [].
Proof.
  intros Hdf Hgt.
  destruct (filter_stage_run h df dataset allowed_products min_combined_spend
              date_lower date_upper Hdf)
    as (l & filtered & h' & Hrun & Hl & Hrows & _ & _).
  exists l, filtered, h'. split_and!; [done..|].
  rewrite Hrows. apply filter_never.
  intros row (Hdate & _). lia.
Qed.

Lemma filter_stage_inverted_range_witness :
  ∃ l filtered h',
    filter_stage sample_df ["A"; "B"; "C"] 0%Z 20230331 20230101 sample_store
      = (Ok l, h')
    ∧ h' !! l = Some filtered
    ∧ rows filtered = [].
Proof.
  apply (filter_stage_inverted_range Z int_number sample_store sample_df
           sample_frame).
  - vm_compute. reflexivity.
  - vm_compute. reflexivity.
Defined.

(** C8. Filtering the frame the filter stage produced, with the same
    predicates, yields a frame with the same rows. *)
Theorem filter_stage_idempotent (num : Type) (N : Number num)
    (h : gmap loc (DataFrame num)) (df : loc) (dataset : DataFrame num)
    (allowed_products : list string) (min_combined_spend : num)
    (date_lower date_upper : Z) :
  h !! df = Some dataset →
  ∃ l1 once h1 l2 twice h2,
    filter_stage df allowed_products min_combined_spend date_lower date_upper h
      = (Ok l1, h1)
    ∧ h1 !! l1 = Some once
    ∧ filter_stage l1 allowed_products min_combined_spend date_lower date_upper h1
      = (Ok l2, h2)
    ∧ h2 !! l2 = Some twice
    ∧ rows twice = rows once.
Proof.
  intros Hdf.
  destruct (filter_stage_run h df dataset allowed_products min_combined_spend
              date_lower date_upper Hdf)
    as (l1 & once & h1 & Hrun1 & Hl1 & Hrows1 & _ & _).
  destruct (filter_stage_run h1 l1 once allowed_products min_combined_spend
              date_lower date_upper Hl1)
    as (l2 & twice & h2 & Hrun2 & Hl2 & Hrows2 & _ & _).
  exists l1, once, h1, l2, twice, h2. split_and!; [done..|].
  rewrite Hrows2, Hrows1, list_filter_filter.
  apply list_filter_iff. tauto.
Qed.

Lemma filter_stage_idempotent_witness :
  ∃ l1 once h1 l2 twice h2,
    filter_stage sample_df ["B"; "C"] 100%Z 20230101 20230331 sample_store
      = (Ok l1, h1)
    ∧ h1 !! l1 = Some once
    ∧ filter_stage l1 ["B"; "C"] 100%Z 20230101 20230331 h1 = (Ok l2, h2)
    ∧ h2 !! l2 = Some twice
    ∧ rows twice = rows once.
Proof.
  apply (filter_stage_idempotent Z int_number sample_store sample_df
           sample_frame).
  vm_compute. reflexivity.
Defined.

(** C9. The callback does not look at the objective: two calls that
    differ in the objective only return the same figures and leave the
    same store. *)
Theorem update_graphs_ignores_objective (num : Type) (N : Number num)
    (P : Power num) (h : gmap loc (DataFrame num)) (df : loc)
    (objective1 objective2 : string) (selected_products : list string)
    (budget_threshold alpha beta : num) (start_date end_date : Z) :
  update_graphs df objective1 selected_products budget_threshold alpha beta
    start_date end_date h
  = update_graphs df objective2 selected_products budget_threshold alpha beta
      start_date end_date h.
Proof. reflexivity. Qed.

(** C10. A call of the callback, whether it returns or raises, leaves the
    base dataset [df] as it was, and with it every frame that existed
    before the call: the column assignments land on a frame created by
    the call. *)
Theorem update_graphs_base_unchanged (num : Type) (N : Number num)
    (P : Power num) (h : gmap loc (DataFrame num)) (df : loc)
    (objective : string) (selected_products : list string)
    (budget_threshold alpha beta : num) (start_date end_date : Z) :
  let h' := (update_graphs df objective selected_products budget_threshold
               alpha beta start_date end_date h).2 in
  h' !! df = h !! df ∧ h ⊆ h'.
Proof.
  intros h'.
  assert (Hsub : h ⊆ h') by apply update_graphs_frame.
  split; [|done].
  destruct (h !! df) as [dataset|] eqn:Hdf.
  - by eapply lookup_weaken.
  - subst h'. unfold update_graphs.
    by rewrite run_bind, filter_stage_dangling.
Qed.

(** C4. The callback plots, per surviving row, [paid_search_spend ** alpha]
    and [banner_ads_spend ** beta]. On the reals, a base [>= 0] and an
    exponent in [0.01, 1.0] give a value that is [>= 0] and at most
    [max(1, base)], hence finite; and [[100, 400] ** 0.5 = [10, 20]]. *)
Theorem diminishing_power :
  (∀ (num : Type) (N : Number num) (P : Power num)
     (h : gmap loc (DataFrame num)) (df : loc) (dataset : DataFrame num)
     (objective : string) (selected_products : list string)
     (budget_threshold alpha beta : num) (start_date end_date : Z),
     h !! df = Some dataset →
     let rs := filter (retained selected_products budget_threshold
                         start_date end_date) (rows dataset) in
     rs ≠ [] →
     ∃ figures h',
       update_graphs df objective selected_products budget_threshold
         alpha beta start_date end_date h = (Ok figures, h')
       ∧ fig_diminishing figures
         = GoFigure
             [Scatter (Date <$> rs)
                ((λ x, pow x alpha) <$> (Paid_Search_Spend <$> rs))
                "Diminishing Paid Search";
              Scatter (Date <$> rs)
                ((λ x, pow x beta) <$> (Banner_Ads_Spend <$> rs))
                "Diminishing Banner Ads"])
  ∧ (∀ x exponent : R,
       (0 <= x)%R → (0.01 <= exponent <= 1)%R →
       (0 <= pow x exponent <= Rmax 1 x)%R)
  ∧ series_pow [100; 400]%R 0.5%R = [10; 20]%R.
Proof.
  split_and!.
  - intros num N P h df dataset objective selected_products budget_threshold
      alpha beta start_date end_date Hdf rs Hrs.
    destruct (update_graphs_run h df dataset objective selected_products
                budget_threshold alpha beta start_date end_date Hdf Hrs)
      as (a1 & a2 & frame & h' & _ & _ & _ & Hrun).
    eexists _, h'. split; [exact Hrun | reflexivity].
  - intros x exponent Hx He. split.
    + by apply Rpow_nonneg.
    + apply Rpow_bounded; lra.
  - unfold series_pow, pow, real_power. simpl.
    replace 100%R with (10 * 10)%R by lra.
    replace 400%R with (20 * 20)%R by lra.
    rewrite !Rpow_half_square by lra. reflexivity.
Qed.

Lemma diminishing_power_witness :
  (∃ figures h',
     update_graphs sample_df "Sales" ["A"; "B"; "C"] 100%Z 1%Z 1%Z
       20230101 20231231 sample_store = (Ok figures, h')
     ∧ fig_diminishing figures
       = GoFigure
           [Scatter [20230131; 20230228; 20230331]%Z [100; 200; 300]%Z
              "Diminishing Paid Search";
            Scatter [20230131; 20230228; 20230331]%Z [50; 60; 70]%Z
              "Diminishing Banner Ads"])
  ∧ (0 <= pow 100 0.5 <= Rmax 1 100)%R.
Proof.
  split.
  - apply (proj1 diminishing_power Z int_number int_power sample_store
             sample_df sample_frame "Sales" ["A"; "B"; "C"] 100%Z 1%Z 1%Z
             20230101%Z 20231231%Z).
    + vm_compute. reflexivity.
    + vm_compute. discriminate.
  - apply (proj1 (proj2 diminishing_power)); lra.
Defined.

(** C5. The uplift series is the sales series multiplied elementwise by
    [1 + alpha], and it is what the callback plots as "Uplifted Sales";
    on binary64, [uplift([1000, 2000], 0.1) = [1100.0, 2200.0]]. *)
Theorem uplift_scales_sales :
  (∀ (num : Type) (N : Number num) (sales : list num) (alpha : num),
     uplift sales alpha = (λ s, mul s (add one alpha)) <$> sales)
  ∧ (∀ (num : Type) (N : Number num) (P : Power num)
       (h : gmap loc (DataFrame num)) (df : loc) (dataset : DataFrame num)
       (objective : string) (selected_products : list string)
       (budget_threshold alpha beta : num) (start_date end_date : Z),
       h !! df = Some dataset →
       let rs := filter (retained selected_products budget_threshold
                           start_date end_date) (rows dataset) in
       rs ≠ [] →
       ∃ figures h',
         update_graphs df objective selected_products budget_threshold
           alpha beta start_date end_date h = (Ok figures, h')
         ∧ fig_uplift figures
           = GoFigure
               [Scatter (Date <$> rs) (Sales <$> rs) "Actual Sales";
                Scatter (Date <$> rs) (uplift (Sales <$> rs) alpha)
                  "Uplifted Sales"])
  ∧ uplift [1000; 2000]%float 0.1%float = [1100; 2200]%float.
Proof.
  split_and!.
  - reflexivity.
  - intros num N P h df dataset objective selected_products budget_threshold
      alpha beta start_date end_date Hdf rs Hrs.
    destruct (update_graphs_run h df dataset objective selected_products
                budget_threshold alpha beta start_date end_date Hdf Hrs)
      as (a1 & a2 & frame & h' & _ & _ & _ & Hrun).
    eexists _, h'. split; [exact Hrun | reflexivity].
  - vm_compute. reflexivity.
Qed.

Lemma uplift_scales_sales_witness :
  ∃ figures h',
    update_graphs sample_df "Sales" ["A"; "B"; "C"] 100%Z 1%Z 1%Z
      20230101 20231231 sample_store = (Ok figures, h')
    ∧ fig_uplift figures
      = GoFigure
          [Scatter [20230131; 20230228; 20230331]%Z [1000; 2000; 3000]%Z
             "Actual Sales";
           Scatter [20230131; 20230228; 20230331]%Z [2000; 4000; 6000]%Z
             "Uplifted Sales"].
Proof.
  apply (proj1 (proj2 uplift_scales_sales) Z int_number int_power sample_store
           sample_df sample_frame "Sales" ["A"; "B"; "C"] 100%Z 1%Z 1%Z
           20230101%Z 20231231%Z).
  - vm_compute. reflexivity.
  - vm_compute. discriminate.
Defined.


(** * Further properties of the callback *)

Section CallFrameFacts.
Context {num : Type} `{Number num} `{Power num}.
Implicit Types (h : gmap loc (DataFrame num)) (f : DataFrame num) (l : loc).

Lemma rows_filtered_frame f selected_products budget_threshold
    start_date end_date :
  rows (filtered_frame f selected_products budget_threshold start_date end_date)
  = filter (retained selected_products budget_threshold start_date end_date)
      (rows f).
Proof.
  unfold filtered_frame. cbn [rows].
  rewrite (mask_select_filter
    (λ r, (Date r >=? start_date)%Z && (Date r <=? end_date)%Z)
    (λ r, (start_date ≤ Date r ≤ end_date)%Z)).
  2:{ intros r. cbv beta. rewrite andb_true_iff, Z.geb_le, Z.leb_le. tauto. }
  rewrite (mask_select_filter
    (λ r, bool_decide (Product r ∈ selected_products))
    (λ r, Product r ∈ selected_products)).
  2:{ intros r. cbv beta. apply bool_decide_eq_true. }
  rewrite (mask_select_filter
    (λ r, ge (add (Paid_Search_Spend r) (Banner_Ads_Spend r)) budget_threshold)
    (λ r, ge (add (Paid_Search_Spend r) (Banner_Ads_Spend r))
             budget_threshold = true)) by done.
  apply three_filters.
Qed.

(** The filter stage, with the frame it creates written out. *)
Lemma filter_stage_frame h df f selected_products budget_threshold
    start_date end_date :
  h !! df = Some f →
  ∃ l h',
    filter_stage df selected_products budget_threshold start_date end_date h
      = (Ok l, h')
    ∧ h' !! l = Some (filtered_frame f selected_products budget_threshold
                        start_date end_date)
    ∧ h !! l = None
    ∧ h ⊆ h'.
Proof.
  intros Hdf. unfold filter_stage.
  rewrite run_bind, (getcol_run _ _ _ f) by done.
  rewrite run_bind, (getcol_run _ _ _ f) by done.
  rewrite date_mask.
  rewrite run_bind, (getitem_mask_run _ _ f) by (by rewrite ?length_fmap).
  set (l1 := fresh (dom h)). set (f1 := Build_DataFrame _ _).
  set (h1 := <[l1 := f1]> h).
  assert (H1 : h1 !! l1 = Some f1) by apply lookup_insert_eq.
  rewrite run_bind, (getcol_run _ _ _ f1) by done.
  rewrite product_mask.
  rewrite run_bind, (getitem_mask_run _ _ f1) by (by rewrite ?length_fmap).
  set (l2 := fresh (dom h1)). set (f2 := Build_DataFrame _ _).
  set (h2 := <[l2 := f2]> h1).
  assert (H2 : h2 !! l2 = Some f2) by apply lookup_insert_eq.
  rewrite run_bind, (getcol_run _ _ _ f2) by done.
  rewrite run_bind, (getcol_run _ _ _ f2) by done.
  rewrite spend_mask.
  rewrite (getitem_mask_run _ _ f2) by (by rewrite ?length_fmap).
  assert (Hsub : h ⊆ h2).
  { trans h1; apply insert_fresh_subseteq. }
  eexists _, _. split_and!.
  - done.
  - apply lookup_insert_eq.
  - eapply lookup_weaken_None; [apply (fresh_lookup h2) | done].
  - trans h2; [done | apply insert_fresh_subseteq].
Qed.

(** What a call returns or raises, from the frame [df] holds alone. *)
Lemma update_graphs_outcome h df f objective selected_products budget_threshold
    alpha beta start_date end_date :
  h !! df = Some f →
  let f3 := filtered_frame f selected_products budget_threshold
              start_date end_date in
  (update_graphs df objective selected_products budget_threshold alpha beta
     start_date end_date h).1
  = match adstock (Paid_Search_Spend <$> rows f3) alpha beta,
          adstock (Banner_Ads_Spend <$> rows f3) alpha beta with
    | Ok a1, Ok a2 => Ok (figures_of f3 a1 a2 alpha beta)
    | Raise e, _ => Raise e
    | _, Raise e => Raise e
    end.
Proof.
  intros Hdf f3.
  destruct (filter_stage_frame h df f selected_products budget_threshold
              start_date end_date Hdf) as (l & h1 & Hrun & Hl & _ & _).
  fold f3 in Hl. unfold update_graphs. rewrite run_bind, Hrun.
  destruct (decide (rows f3 = [])) as [Hnil|Hne].
  - rewrite run_bind, (transform_stage_empty _ _ f3) by done.
    by rewrite Hnil.
  - destruct (transform_stage_run h1 l f3 alpha beta Hl Hne)
      as (a1 & a2 & Ha1 & Ha2 & Htr).
    rewrite Ha1, Ha2, run_bind, Htr.
    fold (transformed_frame f3 a1 a2 alpha beta).
    set (frame := transformed_frame f3 a1 a2 alpha beta).
    assert (Hframe : <[l := frame]> h1 !! l = Some frame)
      by apply lookup_insert_eq.
    rewrite run_bind, (adstock_graph_run _ _ frame a1 a2);
      [|done || by (subst frame; cbn [assigned transformed_frame];
                    simplify_map_eq)..].
    rewrite run_bind, (diminishing_graph_run _ _ frame
        (series_pow (Paid_Search_Spend <$> rows f3) alpha)
        (series_pow (Banner_Ads_Spend <$> rows f3) beta));
      [|done || by (subst frame; cbn [assigned transformed_frame];
                    simplify_map_eq)..].
    rewrite run_bind, (sales_ad_graph_run _ _ frame) by done.
    rewrite run_bind, (budget_product_graph_run _ _ frame) by done.
    rewrite run_bind, (budget_ad_graph_run _ _ frame) by done.
    rewrite run_bind, (uplift_graph_run _ _ frame) by done.
    reflexivity.
Qed.

End CallFrameFacts.

Section OutcomeFacts.
Context {num : Type} `{Number num} `{Power num}.
Implicit Types (h : gmap loc (DataFrame num)) (f : DataFrame num) (l : loc).

(** The two ways a call can end when [df] is bound. *)
Lemma update_graphs_cases h df f objective selected_products budget_threshold
    alpha beta start_date end_date :
  h !! df = Some f →
  let f3 := filtered_frame f selected_products budget_threshold
              start_date end_date in
  let out := (update_graphs df objective selected_products budget_threshold
                alpha beta start_date end_date h).1 in
  (rows f3 = [] ∧ out = Raise IndexError)
  ∨ (rows f3 ≠ []
     ∧ ∃ a1 a2,
         adstock (Paid_Search_Spend <$> rows f3) alpha beta = Ok a1
         ∧ adstock (Banner_Ads_Spend <$> rows f3) alpha beta = Ok a2
         ∧ length a1 = length (rows f3)
         ∧ length a2 = length (rows f3)
         ∧ out = Ok (figures_of f3 a1 a2 alpha beta)).
Proof.
  intros Hdf f3 out. subst out.
  rewrite (update_graphs_outcome h df f) by done. fold f3.
  destruct (decide (rows f3 = [])) as [Hnil|Hne].
  - left. split; [done|]. by rewrite Hnil.
  - right. split; [done|].
    destruct (adstock_fmap_ok Paid_Search_Spend (rows f3) alpha beta Hne)
      as (a1 & Ha1 & Hlen1).
    destruct (adstock_fmap_ok Banner_Ads_Spend (rows f3) alpha beta Hne)
      as (a2 & Ha2 & Hlen2).
    exists a1, a2. by rewrite Ha1, Ha2.
Qed.

End OutcomeFacts.



(** X2. When the callback returns, every trace of the five [go.Figure]
    charts has as many [x] values as [y] values, one per surviving row,
    and the frame given to [px.line] has exactly the surviving rows. *)
Theorem update_graphs_traces_aligned (num : Type) (N : Number num)
    (P : Power num) (h : gmap loc (DataFrame num)) (df : loc)
    (dataset : DataFrame num) (objective : string)
    (selected_products : list string) (budget_threshold alpha beta : num)
    (start_date end_date : Z) :
  h !! df = Some dataset →
  let rs := filter (retained selected_products budget_threshold
                      start_date end_date) (rows dataset) in
  rs ≠ [] →
  ∃ figures,
    (update_graphs df objective selected_products budget_threshold
       alpha beta start_date end_date h).1 = Ok figures
    ∧ Forall (aligned (length rs)) (all_traces figures)
    ∧ length (all_traces figures) = 13
    ∧ ∃ frame x y color,
        fig_budget_product figures = PxLine frame x y color
        ∧ rows frame = rs.
Proof.
  intros Hdf rs Hrs.
  destruct (update_graphs_cases h df dataset objective selected_products
              budget_threshold alpha beta start_date end_date Hdf)
    as [[Hnil _] | (_ & a1 & a2 & _ & _ & Hlen1 & Hlen2 & Hout)].
  { by rewrite rows_filtered_frame in Hnil. }
  assert (Hrows := rows_filtered_frame dataset selected_products
                     budget_threshold start_date end_date).
  fold rs in Hrows.
  remember (filtered_frame dataset selected_products budget_threshold
              start_date end_date) as f3 eqn:Hf3.
  clear Hf3. rewrite Hrows in Hlen1, Hlen2.
  eexists. split; [exact Hout|].
  split_and!.
  - unfold all_traces, figures_of, uplift, series_pow, series_mul.
    cbn [fig_adstock fig_diminishing fig_sales_ad fig_budget_product
         fig_budget_ad fig_uplift figure_traces app].
    rewrite Hrows.
    repeat constructor; by rewrite ?length_fmap.
  - reflexivity.
  - eexists _, _, _, _. split; [reflexivity | exact Hrows].
Qed.

Lemma update_graphs_traces_aligned_witness :
  ∃ figures,
    (update_graphs sample_df "Sales" ["A"; "B"] 100%Z 1%Z 1%Z
       20230101 20231231 sample_store).1 = Ok figures
    ∧ Forall (aligned (length (filter (retained ["A"; "B"] 100%Z
                                         20230101 20231231)
                                 (rows sample_frame))))
             (all_traces figures)
    ∧ length (all_traces figures) = 13
    ∧ ∃ frame x y color,
        fig_budget_product figures = PxLine frame x y color
        ∧ rows frame = filter (retained ["A"; "B"] 100%Z 20230101 20231231)
                         (rows sample_frame).
Proof.
  apply (update_graphs_traces_aligned Z int_number int_power sample_store
           sample_df sample_frame "Sales" ["A"; "B"] 100%Z 1%Z 1%Z
           20230101%Z 20231231%Z).
  - vm_compute. reflexivity.
  - vm_compute. discriminate.
Defined.



(** X4. On a frame without rows the assignments of lines 127-132 raise
    [IndexError] at the first call of [adstock], before anything is
    assigned: the store is left as it was. *)
Theorem transform_stage_no_rows (num : Type) (N : Number num)
    (P : Power num) (h : gmap loc (DataFrame num)) (filtered_df : loc)
    (f : DataFrame num) (alpha beta : num) :
  h !! filtered_df = Some f →
  rows f = [] →
  transform_stage filtered_df alpha beta h = (Raise IndexError, h).
Proof.
  intros Hl Hrows. unfold transform_stage.
  rewrite run_bind, (getcol_run _ _ _ f) by done.
  rewrite Hrows. reflexivity.
Qed.

Lemma transform_stage_no_rows_witness :
  transform_stage 2%positive 1%Z 1%Z
    (<[2%positive := {| rows := []; assigned := ∅ |}]> sample_store)
  = (Raise IndexError,
     <[2%positive := {| rows := []; assigned := ∅ |}]> sample_store).
Proof.
  apply (transform_stage_no_rows Z int_number int_power _ 2%positive
           {| rows := []; assigned := ∅ |}).
  - vm_compute. reflexivity.
  - reflexivity.
Defined.

(** X5. With no product selected the callback raises [IndexError],
    whatever the dataset, the threshold and the date range. *)
Theorem update_graphs_no_product (num : Type) (N : Number num)
    (P : Power num) (h : gmap loc (DataFrame num)) (df : loc)
    (dataset : DataFrame num) (objective : string)
    (budget_threshold alpha beta : num) (start_date end_date : Z) :
  h !! df = Some dataset →
  (update_graphs df objective [] budget_threshold alpha beta
     start_date end_date h).1
  = Raise IndexError.
Proof.
  intros Hdf.
  destruct (update_graphs_cases h df dataset objective [] budget_threshold
              alpha beta start_date end_date Hdf)
    as [[_ Hout] | (Hne & _)]; [done|].
  exfalso. apply Hne. rewrite rows_filtered_frame. apply filter_never.
  intros row (_ & Hin & _). by apply elem_of_nil in Hin.
Qed.

Lemma update_graphs_no_product_witness :
  (update_graphs sample_df "Revenue" [] 0%Z 1%Z 1%Z 20230101 20231231
     sample_store).1
  = Raise IndexError.
Proof.
  apply (update_graphs_no_product Z int_number int_power sample_store
           sample_df sample_frame).
  vm_compute. reflexivity.
Defined.

(** X6. What the callback returns or raises depends on the contents of
    [df] and on the controls only: not on where [df] lives, not on the
    other frames of the store, not on the objective. *)
Theorem update_graphs_reads_df_only (num : Type) (N : Number num)
    (P : Power num) (h1 h2 : gmap loc (DataFrame num)) (df1 df2 : loc)
    (dataset : DataFrame num) (objective1 objective2 : string)
    (selected_products : list string) (budget_threshold alpha beta : num)
    (start_date end_date : Z) :
  h1 !! df1 = Some dataset →
  h2 !! df2 = Some dataset →
  (update_graphs df1 objective1 selected_products budget_threshold alpha beta
     start_date end_date h1).1
  = (update_graphs df2 objective2 selected_products budget_threshold alpha beta
       start_date end_date h2).1.
Proof.
  intros H1 H2.
  rewrite (update_graphs_outcome h1 df1 dataset) by done.
  by rewrite (update_graphs_outcome h2 df2 dataset) by done.
Qed.

Lemma update_graphs_reads_df_only_witness :
  (update_graphs sample_df "Sales" ["B"; "C"] 100%Z 1%Z 1%Z 20230101 20231231
     sample_store).1
  = (update_graphs 5%positive "ROI" ["B"; "C"] 100%Z 1%Z 1%Z 20230101 20231231
       (<[5%positive := sample_frame]>
          {[sample_df := {| rows := []; assigned := ∅ |}]})).1.
Proof.
  apply (update_graphs_reads_df_only Z int_number int_power _ _ _ _
           sample_frame).
  - vm_compute. reflexivity.
  - vm_compute. reflexivity.
Defined.

(** X7. A call leaves nothing behind that a later call can see: after any
    first call, a second call returns or raises what it would have on the
    store the first call started from. *)
Theorem update_graphs_no_hidden_state (num : Type) (N : Number num)
    (P : Power num) (h : gmap loc (DataFrame num)) (df : loc)
    (objective1 objective2 : string) (selected1 selected2 : list string)
    (threshold1 alpha1 beta1 threshold2 alpha2 beta2 : num)
    (start1 end1 start2 end2 : Z) :
  (update_graphs df objective2 selected2 threshold2 alpha2 beta2 start2 end2
     (update_graphs df objective1 selected1 threshold1 alpha1 beta1
        start1 end1 h).2).1
  = (update_graphs df objective2 selected2 threshold2 alpha2 beta2
       start2 end2 h).1.
Proof.
  destruct (h !! df) as [dataset|] eqn:Hdf.
  - apply (update_graphs_reads_df_only num N P _ _ _ _ dataset); [|done].
    eapply lookup_weaken; [exact Hdf | apply update_graphs_frame].
  - f_equal. f_equal. unfold update_graphs.
    by rewrite run_bind, filter_stage_dangling.
Qed.

(** ** Further properties of [adstock] *)

Section AdstockCompose.
Context {num : Type} `{Number num}.
Implicit Types (series rest : list num) (alpha beta : num).

Lemma carry_app alpha beta prev rest later :
  carry alpha beta prev (rest ++ later)
  = carry alpha beta prev rest
    ++ carry alpha beta (default prev (last (carry alpha beta prev rest))) later.
Proof.
  revert prev. induction rest as [|x rest IH]; intros prev; [done|].
  cbn [carry app]. rewrite IH. cbn [app]. do 2 f_equal.
  rewrite last_cons. by destruct (last _).
Qed.

Lemma last_adstock alpha beta x0 rest :
  last (x0 :: carry alpha beta x0 rest)
  = Some (default x0 (last (carry alpha beta x0 rest))).
Proof. rewrite last_cons. by destruct (last _). Qed.

End AdstockCompose.

(** X8. The adstocked value of a period does not depend on the spend of
    later periods: the result on a series is a prefix of the result on any
    extension of the series. *)
Theorem adstock_prefix (num : Type) (N : Number num)
    (series later : list num) (alpha beta : num) :
  series ≠ [] →
  ∃ result extended,
    adstock series alpha beta = Ok result
    ∧ adstock (series ++ later) alpha beta = Ok extended
    ∧ result `prefix_of` extended.
Proof.
  intros Hne. destruct series as [|x0 rest]; [done|].
  rewrite <- app_comm_cons, !adstock_carry, carry_app.
  eexists _, _. split_and!; [done..|].
  rewrite app_comm_cons. by eexists.
Qed.

Lemma adstock_prefix_witness :
  ∃ result extended,
    adstock [100; 200]%Z 1%Z 1%Z = Ok result
    ∧ adstock ([100; 200] ++ [300; 400])%Z 1%Z 1%Z = Ok extended
    ∧ result `prefix_of` extended.
Proof.
  apply (adstock_prefix Z int_number [100; 200]%Z [300; 400]%Z 1%Z 1%Z).
  discriminate.
Defined.

(** X9. Continuing a series is the same as restarting [adstock] from the
    last adstocked value: the result on [series ++ later] is the result
    on [series] followed by the result on [last :: later] without its
    first entry, [last] being the last adstocked value of [series]. *)
Theorem adstock_continue (num : Type) (N : Number num)
    (series later : list num) (alpha beta : num) :
  series ≠ [] →
  ∃ result y restarted,
    adstock series alpha beta = Ok result
    ∧ last result = Some y
    ∧ adstock (y :: later) alpha beta = Ok restarted
    ∧ adstock (series ++ later) alpha beta = Ok (result ++ tail restarted).
Proof.
  intros Hne. destruct series as [|x0 rest]; [done|].
  rewrite <- app_comm_cons, !adstock_carry, carry_app.
  eexists _, _, _. split_and!; [done | apply last_adstock | apply adstock_carry |].
  by rewrite app_comm_cons.
Qed.

Lemma adstock_continue_witness :
  ∃ result y restarted,
    adstock [100; 200]%Z 1%Z 1%Z = Ok result
    ∧ last result = Some y
    ∧ adstock (y :: [300; 400])%Z 1%Z 1%Z = Ok restarted
    ∧ adstock ([100; 200] ++ [300; 400])%Z 1%Z 1%Z
      = Ok (result ++ tail restarted).
Proof.
  apply (adstock_continue Z int_number [100; 200]%Z [300; 400]%Z 1%Z 1%Z).
  discriminate.
Defined.

Section AdstockIntegers.
Local Open Scope Z_scope.


End AdstockIntegers.



Section AdstockReals.
Local Open Scope R_scope.
Implicit Types (alpha beta prev : R) (rest : list R).




End AdstockReals.






(** ** Further properties of the filter stage *)

Section FilterCompose.
Context {A : Type}.

Lemma filter_sublist_mono (P Q : A → Prop) `{!∀ x, Decision (P x)}
    `{!∀ x, Decision (Q x)} (l : list A) :
  (∀ x, P x → Q x) → sublist (filter P l) (filter Q l).
Proof.
  intros HPQ. induction l as [|x l IH]; [constructor|].
  destruct (decide (P x)) as [HP|HP].
  - rewrite !filter_cons_True by auto. by constructor.
  - rewrite (filter_cons_False P) by done.
    destruct (decide (Q x)).
    + rewrite filter_cons_True by done. by constructor.
    + by rewrite filter_cons_False.
Qed.

Lemma filter_comm (P Q : A → Prop) `{!∀ x, Decision (P x)}
    `{!∀ x, Decision (Q x)} (l : list A) :
  filter P (filter Q l) = filter Q (filter P l).
Proof. rewrite !list_filter_filter. apply list_filter_iff. tauto. Qed.

End FilterCompose.

Lemma date_min_le (dates : list Z) (lo : Z) :
  date_min dates = Some lo → Forall (λ d, (lo ≤ d)%Z) dates.
Proof.
  destruct dates as [|d dates]; [constructor|]. intros [= <-].
  assert (Hall : (foldr Z.min d dates ≤ d)%Z
                 ∧ Forall (λ x, (foldr Z.min d dates ≤ x)%Z) dates).
  { induction dates as [|x dates [IH1 IH2]]; simpl; [split; [lia|constructor]|].
    split; [lia|]. constructor; [lia|].
    eapply Forall_impl; [exact IH2|]. intros y Hy. simpl in Hy. lia. }
  destruct Hall. by constructor.
Qed.

Lemma date_max_ge (dates : list Z) (hi : Z) :
  date_max dates = Some hi → Forall (λ d, (d ≤ hi)%Z) dates.
Proof.
  destruct dates as [|d dates]; [constructor|]. intros [= <-].
  assert (Hall : (d ≤ foldr Z.max d dates)%Z
                 ∧ Forall (λ x, (x ≤ foldr Z.max d dates)%Z) dates).
  { induction dates as [|x dates [IH1 IH2]]; simpl; [split; [lia|constructor]|].
    split; [lia|]. constructor; [lia|].
    eapply Forall_impl; [exact IH2|]. intros y Hy. simpl in Hy. lia. }
  destruct Hall. by constructor.
Qed.

(** X14. Selecting fewer products or a narrower date range, at the same
    threshold, only removes rows: the rows kept are among the rows the
    wider selection keeps, in the same order. *)
Theorem filter_stage_narrowing (num : Type) (N : Number num)
    (h : gmap loc (DataFrame num)) (df : loc) (dataset : DataFrame num)
    (narrow wide : list string) (budget_threshold : num)
    (start1 end1 start2 end2 : Z) :
  h !! df = Some dataset →
  narrow ⊆ wide →
  (start2 ≤ start1)%Z → (end1 ≤ end2)%Z →
  ∃ l1 f1 h1 l2 f2 h2,
    filter_stage df narrow budget_threshold start1 end1 h = (Ok l1, h1)
    ∧ h1 !! l1 = Some f1
    ∧ filter_stage df wide budget_threshold start2 end2 h = (Ok l2, h2)
    ∧ h2 !! l2 = Some f2
    ∧ sublist (rows f1) (rows f2).
Proof.
  intros Hdf Hsub Hstart Hend.
  destruct (filter_stage_run h df dataset narrow budget_threshold
              start1 end1 Hdf) as (l1 & f1 & h1 & Hrun1 & Hl1 & Hrows1 & _ & _).
  destruct (filter_stage_run h df dataset wide budget_threshold
              start2 end2 Hdf) as (l2 & f2 & h2 & Hrun2 & Hl2 & Hrows2 & _ & _).
  exists l1, f1, h1, l2, f2, h2. split_and!; [done..|].
  rewrite Hrows1, Hrows2. apply filter_sublist_mono.
  intros row (Hdate & Hin & Hspend). split_and!; [lia | lia | auto | done].
Qed.

Lemma filter_stage_narrowing_witness :
  ∃ l1 f1 h1 l2 f2 h2,
    filter_stage sample_df ["B"] 100%Z 20230201 20230331 sample_store
      = (Ok l1, h1)
    ∧ h1 !! l1 = Some f1
    ∧ filter_stage sample_df ["A"; "B"] 100%Z 20230101 20231231 sample_store
      = (Ok l2, h2)
    ∧ h2 !! l2 = Some f2
    ∧ sublist (rows f1) (rows f2).
Proof.
  apply (filter_stage_narrowing Z int_number sample_store sample_df
           sample_frame).
  - vm_compute. reflexivity.
  - intros p Hp. apply list_elem_of_singleton in Hp. subst p. repeat constructor.
  - lia.
  - lia.
Defined.

(** X15. Two filter stages in a row, each from the frame the other
    produced, keep the same rows in either order. *)
Theorem filter_stage_commutes (num : Type) (N : Number num)
    (h : gmap loc (DataFrame num)) (df : loc) (dataset : DataFrame num)
    (selected1 selected2 : list string) (threshold1 threshold2 : num)
    (start1 end1 start2 end2 : Z) :
  h !! df = Some dataset →
  ∃ la fa ha lab fab hab lb fb hb lba fba hba,
    filter_stage df selected1 threshold1 start1 end1 h = (Ok la, ha)
    ∧ ha !! la = Some fa
    ∧ filter_stage la selected2 threshold2 start2 end2 ha = (Ok lab, hab)
    ∧ hab !! lab = Some fab
    ∧ filter_stage df selected2 threshold2 start2 end2 h = (Ok lb, hb)
    ∧ hb !! lb = Some fb
    ∧ filter_stage lb selected1 threshold1 start1 end1 hb = (Ok lba, hba)
    ∧ hba !! lba = Some fba
    ∧ rows fab = rows fba.
Proof.
  intros Hdf.
  destruct (filter_stage_run h df dataset selected1 threshold1 start1 end1 Hdf)
    as (la & fa & ha & Hruna & Hla & Hrowsa & _ & _).
  destruct (filter_stage_run ha la fa selected2 threshold2 start2 end2 Hla)
    as (lab & fab & hab & Hrunab & Hlab & Hrowsab & _ & _).
  destruct (filter_stage_run h df dataset selected2 threshold2 start2 end2 Hdf)
    as (lb & fb & hb & Hrunb & Hlb & Hrowsb & _ & _).
  destruct (filter_stage_run hb lb fb selected1 threshold1 start1 end1 Hlb)
    as (lba & fba & hba & Hrunba & Hlba & Hrowsba & _ & _).
  exists la, fa, ha, lab, fab, hab, lb, fb, hb, lba, fba, hba.
  split_and!; [done..|].
  rewrite Hrowsab, Hrowsa, Hrowsba, Hrowsb. apply filter_comm.
Qed.

Lemma filter_stage_commutes_witness :
  ∃ la fa ha lab fab hab lb fb hb lba fba hba,
    filter_stage sample_df ["A"; "B"] 100%Z 20230101 20231231 sample_store
      = (Ok la, ha)
    ∧ ha !! la = Some fa
    ∧ filter_stage la ["B"; "C"] 200%Z 20230201 20230331 ha = (Ok lab, hab)
    ∧ hab !! lab = Some fab
    ∧ filter_stage sample_df ["B"; "C"] 200%Z 20230201 20230331 sample_store
      = (Ok lb, hb)
    ∧ hb !! lb = Some fb
    ∧ filter_stage lb ["A"; "B"] 100%Z 20230101 20231231 hb = (Ok lba, hba)
    ∧ hba !! lba = Some fba
    ∧ rows fab = rows fba.
Proof.
  apply (filter_stage_commutes Z int_number sample_store sample_df
           sample_frame).
  vm_compute. reflexivity.
Defined.

(** X16. On integers, raising the budget threshold only removes rows. *)
Theorem filter_stage_threshold_monotone (h : gmap loc (DataFrame Z))
    (df : loc) (dataset : DataFrame Z) (selected_products : list string)
    (low high : Z) (start_date end_date : Z) :
  h !! df = Some dataset →
  (low ≤ high)%Z →
  ∃ l1 f1 h1 l2 f2 h2,
    filter_stage df selected_products high start_date end_date h = (Ok l1, h1)
    ∧ h1 !! l1 = Some f1
    ∧ filter_stage df selected_products low start_date end_date h = (Ok l2, h2)
    ∧ h2 !! l2 = Some f2
    ∧ sublist (rows f1) (rows f2).
Proof.
  intros Hdf Hle.
  destruct (filter_stage_run h df dataset selected_products high
              start_date end_date Hdf)
    as (l1 & f1 & h1 & Hrun1 & Hl1 & Hrows1 & _ & _).
  destruct (filter_stage_run h df dataset selected_products low
              start_date end_date Hdf)
    as (l2 & f2 & h2 & Hrun2 & Hl2 & Hrows2 & _ & _).
  exists l1, f1, h1, l2, f2, h2. split_and!; [done..|].
  rewrite Hrows1, Hrows2. apply filter_sublist_mono.
  intros row (Hdate & Hin & Hspend). split_and!; [lia | lia | done |].
  simpl in *. apply Z.geb_le. apply Z.geb_le in Hspend. lia.
Qed.

Lemma filter_stage_threshold_monotone_witness :
  ∃ l1 f1 h1 l2 f2 h2,
    filter_stage sample_df ["A"; "B"; "C"] 300%Z 20230101 20231231 sample_store
      = (Ok l1, h1)
    ∧ h1 !! l1 = Some f1
    ∧ filter_stage sample_df ["A"; "B"; "C"] 200%Z 20230101 20231231
        sample_store = (Ok l2, h2)
    ∧ h2 !! l2 = Some f2
    ∧ sublist (rows f1) (rows f2).
Proof.
  apply (filter_stage_threshold_monotone sample_store sample_df sample_frame).
  - vm_compute. reflexivity.
  - lia.
Defined.

(** X17. With the defaults of the layout, the whole date range of the
    dataset (lines 78-79) and every product selected (line 58), on a
    dataset whose products are among [products] (line 16), only the
    budget threshold removes rows. *)
Theorem filter_stage_layout_defaults (num : Type) (N : Number num)
    (h : gmap loc (DataFrame num)) (df : loc) (dataset : DataFrame num)
    (budget_threshold : num) (start_date end_date : Z) :
  h !! df = Some dataset →
  date_min (Date <$> rows dataset) = Some start_date →
  date_max (Date <$> rows dataset) = Some end_date →
  Forall (λ row, Product row ∈ products) (rows dataset) →
  ∃ l filtered h',
    filter_stage df products budget_threshold start_date end_date h = (Ok l, h')
    ∧ h' !! l = Some filtered
    ∧ rows filtered
      = filter (λ row, ge (add (Paid_Search_Spend row) (Banner_Ads_Spend row))
                          budget_threshold = true) (rows dataset).
Proof.
  intros Hdf Hmin Hmax Hprod.
  destruct (filter_stage_run h df dataset products budget_threshold
              start_date end_date Hdf)
    as (l & filtered & h' & Hrun & Hl & Hrows & _ & _).
  exists l, filtered, h'. split_and!; [done..|].
  rewrite Hrows.
  apply date_min_le in Hmin. apply date_max_ge in Hmax.
  rewrite Forall_fmap in Hmin, Hmax.
  rewrite Forall_forall in Hmin, Hmax, Hprod.
  clear Hrows Hdf. induction (rows dataset) as [|row rs IH]; [done|].
  assert (Hrow : row ∈ row :: rs) by left.
  assert (IH' : filter (retained products budget_threshold start_date end_date)
                  rs
                = filter (λ row, ge (add (Paid_Search_Spend row)
                                        (Banner_Ads_Spend row))
                                    budget_threshold = true) rs).
  { apply IH; intros x Hx; [apply Hmin | apply Hmax | apply Hprod]; by right. }
  destruct (decide (ge (add (Paid_Search_Spend row) (Banner_Ads_Spend row))
                       budget_threshold = true)) as [Hge|Hge].
  - rewrite !filter_cons_True; [by rewrite IH' | done |].
    split_and!; [apply (Hmin row Hrow) | apply (Hmax row Hrow)
                | by apply Hprod | done].
  - rewrite !filter_cons_False; [done | done |].
    by intros (_ & _ & ?).
Qed.

Lemma filter_stage_layout_defaults_witness :
  let dataset :=
    {| rows := [sample_row "Pet Food" 20230131 1000 500 300;
                sample_row "Confectionary" 20230228 2000 700 400;
                sample_row "Pet Food" 20230331 3000 900 500];
       assigned := ∅ |} in
  ∃ l filtered h',
    filter_stage sample_df products 1000%Z 20230131 20230331
      {[sample_df := dataset]} = (Ok l, h')
    ∧ h' !! l = Some filtered
    ∧ rows filtered
      = filter (λ row, ge (add (Paid_Search_Spend row) (Banner_Ads_Spend row))
                          1000%Z = true) (rows dataset).
Proof.
  intros dataset.
  apply (filter_stage_layout_defaults Z int_number {[sample_df := dataset]}
           sample_df dataset 1000%Z 20230131%Z 20230331%Z).
  - vm_compute. reflexivity.
  - vm_compute. reflexivity.
  - vm_compute. reflexivity.
  - repeat constructor.
Defined.
